(** * webpack-node-utils: the build-process runner, the externals resolver
      and the configuration loader

    A shallow embedding of [src/runner.js] and [src/index.js].

    - JavaScript objects used as dictionaries are finite maps, or
      association lists in [Object.keys] order where that order is
      observable (the assets of a compilation, the manifest, [extras]).
    - [null] and [undefined] are [None]; an optional argument is an option.
    - A thrown exception is the [Throw] outcome.
    - The runner's handlers run in a small monad that passes the instance
      and the host along and collects, in order, the calls that leave the
      program: [console.log], [child_process.fork], [kill] and the
      continuation webpack hands to [after-emit].
    - What Node and webpack-merge provide ([path.resolve], [path.join],
      [require], [Date.now], [merge]) is a parameter.
    - The repository holds two revisions of [runner.js], which differ in
      the filter applied to the asset names; the handlers take the revision
      as a parameter. *)

From Stdlib Require Import ZArith String Ascii Bool List Lia.
From stdpp Require Import base option list strings gmap fin_maps pretty.

Open Scope string_scope.
Open Scope list_scope.

(** ** JavaScript primitives used by both modules *)

(** Truthiness of a string-or-null value: [null] and [''] are falsy. *)
Definition truthy (v : option string) : bool :=
  match v with
  | Some s => negb (String.eqb s "")
  | None => false
  end.

(** [`${v}`] for a string-or-null value. *)
Definition template (v : option string) : string :=
  match v with
  | Some s => s
  | None => "null"
  end.

(** [s.indexOf(sub)]: the position of the first occurrence, or -1. *)
Definition indexOf (s sub : string) : Z :=
  match String.index 0 sub s with
  | Some n => Z.of_nat n
  | None => (-1)%Z
  end.

(** [s.includes(sub)]. *)
Definition includes (s sub : string) : bool :=
  match String.index 0 sub s with
  | Some _ => true
  | None => false
  end.

(** [l.indexOf(x) === -1] on an array of strings. *)
Definition absent (l : list string) (x : string) : bool :=
  negb (existsb (String.eqb x) l).

(** [l.join(sep)]. *)
Definition join (sep : string) (l : list string) : string :=
  String.concat sep l.

(** Characters of a string, last one first. *)
Fixpoint rev_chars (s : string) (acc : list ascii) : list ascii :=
  match s with
  | EmptyString => acc
  | String c s' => rev_chars s' (c :: acc)
  end.

(** [s.match(/\.js$/i)] as a boolean: the text ends with a dot followed by
    [j] and [s] in either case. *)
Definition matches_js (s : string) : bool :=
  match rev_chars s [] with
  | c3 :: c2 :: c1 :: _ =>
      (Ascii.eqb c1 "."%char)
      && (Ascii.eqb c2 "j"%char || Ascii.eqb c2 "J"%char)
      && (Ascii.eqb c3 "s"%char || Ascii.eqb c3 "S"%char)
  | _ => false
  end.

(** [Object.keys(o)] of an object given by its entries in key order. *)
Definition Object_keys {A} (o : list (string * A)) : list string :=
  map fst o.

(** [o[k]]: the first binding of [k], [undefined] when there is none. *)
Fixpoint get {A} (o : list (string * A)) (k : string) : option A :=
  match o with
  | [] => None
  | (k', v) :: o' => if String.eqb k' k then Some v else get o' k
  end.

(** ** Outcomes and effects *)

Inductive error :=
| TypeError (msg : string)
| ModuleNotFound (path : string).

Inductive result (A : Type) :=
| Ok (a : A)
| Throw (e : error).
Arguments Ok {A} a.
Arguments Throw {A} e.

(** A handle of a forked child process: the host numbers the children it
    has forked. *)
Definition child := nat.

(** What a handler does to the outside world, in order. *)
Inductive effect :=
| Log (color text : string)              (* console.log(colors[color](text)) *)
| Fork (modulePath : option string) (h : child)  (* fork(modulePath) *)
| Kill (h : child)                       (* h.kill() *)
| Callback.                              (* callback() *)

Definition is_fork (e : effect) : bool :=
  match e with Fork _ _ => true | _ => false end.
Definition is_kill (e : effect) : bool :=
  match e with Kill _ => true | _ => false end.
Definition is_log (e : effect) : bool :=
  match e with Log _ _ => true | _ => false end.
Definition is_callback (e : effect) : bool :=
  match e with Callback => true | _ => false end.

Definition count (p : effect -> bool) (t : list effect) : nat :=
  List.length (List.filter p t).

(** ** The runner (src/runner.js) *)

Module Runner.

(** The instance fields set by the constructor. *)
Record runner := mkRunner {
  _entry : option string;
  _entryPath : option string;
  _running : bool;
  _instance : option child;
  _setup : bool;
}.

(** [this._logColors]. *)
Definition _logColors : list (string * string) :=
  [("info", "grey"); ("error", "red"); ("warn", "yellow"); ("success", "green")].

(** [new WebpackNodeUtilsRunner(entry)]: [entry || null]. *)
Definition constructor (entry : option string) : runner :=
  {| _entry := if truthy entry then entry else None;
     _entryPath := None;
     _running := false;
     _instance := None;
     _setup := false |}.

(** An emitted asset and the compilation handed to [after-emit];
    [assets] lists the entries of [compilation.assets] in [Object.keys]
    order.  [existsAt] is the path the emit phase of the host records on
    every asset it writes, before it fires [after-emit]; the empty string
    is its only falsy value. *)
Record asset := mkAsset { existsAt : string }.
Record compilation := mkCompilation { assets : list (string * asset) }.

(** The state a handler runs in: the instance and the number of children
    the host has forked so far. *)
Record machine := mkMachine { this : runner; forked : nat }.

(** Handlers: state passing, an output list, and exceptions. *)
Definition M (A : Type) : Type := machine -> result (A * machine * list effect).

Definition ret {A} (a : A) : M A := fun m => Ok (a, m, []).

Definition bind {A B} (x : M A) (f : A -> M B) : M B :=
  fun m =>
    match x m with
    | Ok (a, m1, t1) =>
        match f a m1 with
        | Ok (b, m2, t2) => Ok (b, m2, t1 ++ t2)
        | Throw e => Throw e
        end
    | Throw e => Throw e
    end.

Definition throw {A} (e : error) : M A := fun _ => Throw e.

#[export] Instance M_ret : MRet M := @ret.
#[export] Instance M_bind : MBind M := fun A B f x => bind x f.

Definition self : M runner := fun m => Ok (this m, m, []).

Definition update (f : runner -> runner) : M unit :=
  fun m => Ok (tt, {| this := f (this m); forked := forked m |}, []).

Definition emit (e : effect) : M unit := fun m => Ok (tt, m, [e]).

Definition set_entry (v : option string) (r : runner) : runner :=
  {| _entry := v; _entryPath := _entryPath r; _running := _running r;
     _instance := _instance r; _setup := _setup r |}.
Definition set_entryPath (v : option string) (r : runner) : runner :=
  {| _entry := _entry r; _entryPath := v; _running := _running r;
     _instance := _instance r; _setup := _setup r |}.
Definition set_running (v : bool) (r : runner) : runner :=
  {| _entry := _entry r; _entryPath := _entryPath r; _running := v;
     _instance := _instance r; _setup := _setup r |}.
Definition set_instance (v : option child) (r : runner) : runner :=
  {| _entry := _entry r; _entryPath := _entryPath r; _running := _running r;
     _instance := v; _setup := _setup r |}.
Definition set_setup (v : bool) (r : runner) : runner :=
  {| _entry := _entry r; _entryPath := _entryPath r; _running := _running r;
     _instance := _instance r; _setup := v |}.

(** [fork(modulePath)]: the host starts a child and returns its handle. *)
Definition fork (modulePath : option string) : M child :=
  fun m =>
    Ok (forked m, {| this := this m; forked := S (forked m) |},
        [Fork modulePath (forked m)]).

(** [h.kill()]. *)
Definition kill (h : child) : M unit := emit (Kill h).

(** [_log(msg, color)]. *)
Definition _log (msg color : option string) : M unit :=
  let logMsg :=
    if truthy msg then "[WebpackNodeUtilsRunner] " +:+ template msg else "" in
  let logColor := if truthy color then template color else "white" in
  emit (Log logColor logMsg).

(** The methods [_defineLogMethods] creates: [_log<Name>(msg)] logs with
    the color [_logColors[name]]. *)
Definition _logMethod (name : string) (msg : string) : M unit :=
  _log (Some msg) (get _logColors name).

Definition _logInfo := _logMethod "info".
Definition _logError := _logMethod "error".
Definition _logWarn := _logMethod "warn".
Definition _logSuccess := _logMethod "success".

(** [_logAvailableEntries(entries)]. *)
Definition _logAvailableEntries (entries : list string) : M unit :=
  let list := join ", " entries in
  _logInfo ("These are the available entries: " +:+ list).

(** The repository carries two revisions of [runner.js]; they differ only
    in the filter [_onAssetsEmitted] applies to the asset names. *)
Inductive revision :=
| HotUpdateFilter     (* a => a.indexOf('hot-update') < 0 *)
| ScriptFilter.       (* ... && assets[a].existsAt && existsAt.match(/\.js$/i) *)

(** [l.filter(p)] for a callback that may throw. *)
Fixpoint filter_r (p : string -> result bool) (l : list string)
  : result (list string) :=
  match l with
  | [] => Ok []
  | a :: l' =>
      match p a with
      | Throw e => Throw e
      | Ok b =>
          match filter_r p l' with
          | Throw e => Throw e
          | Ok r => Ok (if b then a :: r else r)
          end
      end
  end.

(** Reading a property of [undefined]. *)
Definition undefined_property {A} (k : string) : result A :=
  Throw (TypeError ("Cannot read property of undefined: " +:+ k)).

(** The callback given to [filter]. *)
Definition is_entry (rev : revision) (c : compilation) (a : string)
  : result bool :=
  match rev with
  | HotUpdateFilter => Ok (indexOf a "hot-update" <? 0)%Z
  | ScriptFilter =>
      if includes a "hot-update" then Ok false
      else
        match get (assets c) a with
        | None => undefined_property a
        | Some x => Ok (truthy (Some (existsAt x)) && matches_js (existsAt x))
        end
  end.

(** [Object.keys(compilation.assets).filter(...)]. *)
Definition entries_of (rev : revision) (c : compilation)
  : result (list string) :=
  filter_r (is_entry rev c) (Object_keys (assets c)).

Definition lift {A} (x : result A) : M A :=
  fun m => match x with Ok a => Ok (a, m, []) | Throw e => Throw e end.

(** The events the host delivers to the handlers registered by [apply]. *)
Inductive hook :=
| AfterEmit (c : compilation)
| Compile
| Done.

Section Handlers.

(** [path.resolve] of Node, for the working directory of the host. *)
Variable path_resolve : string -> string.

Variable rev : revision.

(** The continuation webpack passes to [after-emit] handlers. *)
Definition callback : M unit := emit Callback.

Definition _onAssetsEmitted (c : compilation) : M unit :=
  r ← self;
  (if negb (_setup r) then
     update (set_setup true);;
     entries ← lift (entries_of rev c);
     _log None None;;
     r ← self;
     (if truthy (_entry r) && absent entries (template (_entry r)) then
        _logError ("The required entry (" +:+ template (_entry r)
                   +:+ ") doesn't exist");;
        update (set_entry None);;
        _logAvailableEntries entries
      else if negb (truthy (_entry r)) && (List.length entries =? 1)%nat then
        update (set_entry (head entries));;
        r ← self;
        _logSuccess ("Using the only available entry: " +:+ template (_entry r))
      else if negb (truthy (_entry r)) && (1 <? List.length entries)%nat then
        update (set_entry (head entries));;
        r ← self;
        _logWarn ("Doing fallback to the first entry: " +:+ template (_entry r));;
        _logAvailableEntries entries
      else
        _logSuccess ("Using the following entry: " +:+ template (_entry r)));;
     r ← self;
     (if truthy (_entry r) then
        match get (assets c) (template (_entry r)) with
        | None => throw (TypeError "Cannot read property 'existsAt' of undefined")
        | Some x =>
            update (set_entryPath (Some (path_resolve (existsAt x))));;
            r ← self;
            _logSuccess ("Entry file: " +:+ template (_entryPath r))
        end
      else mret tt)
   else mret tt);;
  callback.

Definition _onCompilationStarts : M unit :=
  r ← self;
  if truthy (_entry r) && _running r && bool_decide (is_Some (_instance r)) then
    _logInfo "Stopping bundle process";;
    match _instance r with
    | Some h => kill h
    | None => throw (TypeError "Cannot read property 'kill' of null")
    end;;
    update (set_instance None);;
    update (set_running false)
  else mret tt.

Definition _onCompilationEnds : M unit :=
  r ← self;
  if truthy (_entry r) && negb (_running r) then
    h ← fork (_entryPath r);
    update (set_instance (Some h));;
    _log None None;;
    _logSuccess "Starting bundle process";;
    update (set_running true)
  else mret tt.

(** [compiler.plugin(name, handler)] as [apply] registers it. *)
Definition handler (ev : hook) : M unit :=
  match ev with
  | AfterEmit c => _onAssetsEmitted c
  | Compile => _onCompilationStarts
  | Done => _onCompilationEnds
  end.

(** The host delivers a sequence of events, one after the other; an
    exception ends the run. *)
Fixpoint deliver (evs : list hook) : M unit :=
  match evs with
  | [] => mret tt
  | ev :: evs' => handler ev;; deliver evs'
  end.

End Handlers.

End Runner.

(** ** The static helpers (src/index.js) *)

Module WebpackNodeUtils.

(** The JavaScript values that travel through the loader: the parameter
    bag and the objects the configuration functions return. *)
#[warnings="-register-all"]
Inductive value :=
| VUndefined
| VNull
| VBool (b : bool)
| VNum (n : Z)
| VStr (s : string)
| VArr (l : list value)
| VObj (o : gmap string value).

(** Truthiness. *)
Definition truthy_v (v : value) : bool :=
  match v with
  | VUndefined | VNull => false
  | VBool b => b
  | VNum n => negb (n =? 0)%Z
  | VStr s => negb (String.eqb s "")
  | VArr _ | VObj _ => true
  end.

(** [`${v}`]: numbers in decimal, arrays joined with commas. *)
Fixpoint to_string (v : value) : string :=
  match v with
  | VUndefined => "undefined"
  | VNull => "null"
  | VBool b => if b then "true" else "false"
  | VNum n => pretty n
  | VStr s => s
  | VArr l =>
      join ","
        (map (fun x =>
                match x with
                | VUndefined | VNull => ""
                | _ => to_string x
                end) l)
  | VObj _ => "[object Object]"
  end.

(** [v[k]]: reading a property throws on [null] and [undefined]. *)
Definition get_property (v : value) (k : string) : result value :=
  match v with
  | VUndefined | VNull =>
      Throw (TypeError ("Cannot read property of undefined: " +:+ k))
  | VObj o => Ok (default VUndefined (o !! k))
  | _ => Ok VUndefined
  end.

(** [delete v[k]]. *)
Definition delete_property (v : value) (k : string) : value :=
  match v with
  | VObj o => VObj (delete k o)
  | _ => v
  end.

(** [Object.assign(target, source)]: the keys of [source] are written over
    [target]. *)
Definition Object_assign (target source : gmap string value)
  : gmap string value :=
  source ∪ target.

(** An optional boolean argument: omitted is falsy. *)
Definition truthy_b (b : option bool) : bool := default false b.

(** [`${v}`] for a string-or-undefined value. *)
Definition template_u (v : option string) : string :=
  match v with
  | Some s => s
  | None => "undefined"
  end.

(** A function exported by a configuration file: it returns a value or
    throws. *)
Definition jsfun : Type := value -> result value.

(** What [require] returns for a configuration file: [module.exports] as a
    callable, and its named properties. *)
Record module := mkModule {
  exports_call : option jsfun;
  exports_get : string -> option jsfun;
}.

(** The part of [package.json] that [externals] reads: the two mappings
    from a package name to a version, each given by its entries in
    [Object.keys] order. *)
Record manifest := mkManifest {
  dependencies : list (string * string);
  devDependencies : list (string * string);
}.

Section Static.

(** [process.cwd()] when the module was loaded. *)
Variable rootPath : string.
(** [path.join] of Node. *)
Variable path_join : string -> string -> string.
(** Node's [require], at the two types it is used at: [None] when the file
    cannot be resolved. *)
Variable node_require : string -> option module.
Variable node_require_json : string -> option manifest.
(** [webpack-merge]. *)
Variable merge : value -> value -> value.

(** [WebpackNodeUtils.require(modulePath)]. *)
Definition require (modulePath : string) : result module :=
  match node_require (path_join rootPath modulePath) with
  | Some m => Ok m
  | None => Throw (ModuleNotFound (path_join rootPath modulePath))
  end.

Definition require_json (modulePath : string) : result manifest :=
  match node_require_json (path_join rootPath modulePath) with
  | Some m => Ok m
  | None => Throw (ModuleNotFound (path_join rootPath modulePath))
  end.

(** [configModule(params)]. *)
Definition call (m : module) (params : value) : result value :=
  match exports_call m with
  | Some f => f params
  | None => Throw (TypeError "configModule is not a function")
  end.

(** [configModule[fn](params)]. *)
Definition call_named (m : module) (fn : string) (params : value)
  : result value :=
  match exports_get m fn with
  | Some f => f params
  | None => Throw (TypeError "configModule[fn] is not a function")
  end.

(** [_loadConfig(directory, name, params, fn)]; the recursion follows the
    [extends] chain and is bounded here by [fuel], [None] meaning that the
    fuel ran out before the call returned. *)
Fixpoint _loadConfig (fuel : nat) (directory name : string) (params : value)
  (fn : option string) : option (result value) :=
  match fuel with
  | O => None
  | S fuel' =>
      let configPath := path_join directory (name +:+ ".js") in
      match require configPath with
      | Throw e => Some (Throw e)
      | Ok configModule =>
          match (if truthy fn then call_named configModule (template fn) params
                 else call configModule params) with
          | Throw e => Some (Throw e)
          | Ok config =>
              match get_property config "extends" with
              | Throw e => Some (Throw e)
              | Ok ext =>
                  if truthy_v ext then
                    match _loadConfig fuel' directory (to_string ext) params None with
                    | None => None
                    | Some (Throw e) => Some (Throw e)
                    | Some (Ok baseConfig) =>
                        let config := delete_property config "extends" in
                        Some (Ok (merge baseConfig config))
                    end
                  else Some (Ok config)
              end
          end
      end
  end.

(** The parameter bag [config] builds; [now] is the value of [Date.now()]. *)
Definition config_params (now : Z) (useHash : option bool)
  (params : option (gmap string value)) : gmap string value :=
  let hash := if truthy_b useHash then VNum now else VStr "" in
  let hashStr :=
    if truthy_b useHash then VStr ("." +:+ to_string hash) else VStr "" in
  Object_assign {[ "hash" := hash; "hashStr" := hashStr ]} (default ∅ params).

(** [config(directory, target, type, useHash, params, fn)]. *)
Definition config (now : Z) (fuel : nat) (directory target type : string)
  (useHash : option bool) (params : option (gmap string value))
  (fn : option string) : option (result value) :=
  let params := VObj (config_params now useHash params) in
  let fn := if truthy fn then fn else Some "" in
  let configName := target +:+ "." +:+ type in
  _loadConfig fuel directory configName params fn.

(** [externals(extras, addDev, defaults, ignore)]. *)
Definition externals (extras : option (list (string * string)))
  (addDev : option bool) (defaults ignore : option (list string))
  : result (gmap string string) :=
  match require_json "package.json" with
  | Throw e => Throw e
  | Ok packageJSON =>
      let deps := Object_keys (dependencies packageJSON) in
      let devDeps :=
        if truthy_b addDev then Object_keys (devDependencies packageJSON)
        else [] in
      let defaultsDeps :=
        default ["webpack-node-utils"; "colors/safe"] defaults in
      let ignoreDeps :=
        default ["normalize.css"; "font-awesome"; "react-tap-event-plugin"]
          ignore in
      let result :=
        fold_left
          (fun (result : gmap string string) pckg =>
             if absent ignoreDeps pckg
             then <[pckg := "commonjs " +:+ pckg]> result
             else result)
          (defaultsDeps ++ deps ++ devDeps) ∅ in
      let result :=
        match extras with
        | Some ex =>
            fold_left
              (fun (result : gmap string string) name =>
                 <[name := "commonjs " +:+ template_u (get ex name)]> result)
              (Object_keys ex) result
        | None => result
        end in
      Ok result
  end.

End Static.

End WebpackNodeUtils.

Import Runner.

(** ** Notions used in the statements *)

(** The prefix [_log] puts before a message. *)
Definition tagged (msg : string) : string :=
  "[WebpackNodeUtilsRunner] " +:+ msg.

(** The instance after a start and after a stop. *)
Definition started (h : child) (r : runner) : runner :=
  set_running true (set_instance (Some h) r).
Definition stopped (r : runner) : runner :=
  set_running false (set_instance None r).

(** The filter of each revision as a predicate on names. *)
Definition hot_update_fragment (a : string) : bool := includes a "hot-update".

Definition finished_script (c : compilation) (a : string) : bool :=
  match get (assets c) a with
  | Some x => negb (String.eqb (existsAt x) "") && matches_js (existsAt x)
  | None => false
  end.

Definition keeps (rev : revision) (c : compilation) (a : string) : bool :=
  match rev with
  | HotUpdateFilter => negb (hot_update_fragment a)
  | ScriptFilter => negb (hot_update_fragment a) && finished_script c a
  end.

(** The if-chain of [_onAssetsEmitted] as a function of the pre-set name
    and the candidates: the name it leaves in [_entry] and the lines it
    logs. *)
Definition selection (e : option string) (entries : list string)
  : option string * list effect :=
  let available :=
    Log "grey" (tagged ("These are the available entries: "
                        +:+ join ", " entries)) in
  if truthy e && absent entries (template e) then
    (None,
     [Log "red" (tagged ("The required entry (" +:+ template e
                         +:+ ") doesn't exist")); available])
  else if negb (truthy e) && (List.length entries =? 1)%nat then
    (head entries,
     [Log "green" (tagged ("Using the only available entry: "
                           +:+ template (head entries)))])
  else if negb (truthy e) && (1 <? List.length entries)%nat then
    (head entries,
     [Log "yellow" (tagged ("Doing fallback to the first entry: "
                            +:+ template (head entries))); available])
  else
    (e, [Log "green" (tagged ("Using the following entry: " +:+ template e))]).

(** The instance and the log once the path of a selected entry is stored. *)
Definition located (path_resolve : string -> string) (c : compilation)
  (r : runner) : runner * list effect :=
  if truthy (_entry r) then
    match get (assets c) (template (_entry r)) with
    | Some x =>
        (set_entryPath (Some (path_resolve (existsAt x))) r,
         [Log "green" (tagged ("Entry file: " +:+ path_resolve (existsAt x)))])
    | None => (r, [])
    end
  else (r, []).

(** What the two string tests of the filter mean. *)
Definition mentions (sub s : string) : Prop :=
  exists n, substring n (String.length sub) s = sub.


(** ** A concrete host *)

(** The inputs the statements are exercised on: the compilation of the
    runner's test suite, a project directory, and three configuration
    files, one of which extends another and one of which extends itself. *)
Module Sample.

Import WebpackNodeUtils.

Definition path_resolve (p : string) : string := "/project/" +:+ p.

Definition path_join (a b : string) : string := a +:+ "/" +:+ b.

Definition compilation_two : compilation :=
  {| assets := [("backend", mkAsset "./backend.js");
                ("app", mkAsset "./app.js")] |}.

Definition resolved_app : runner :=
  {| _entry := Some "app"; _entryPath := Some "/project/./app.js";
     _running := false; _instance := None; _setup := true |}.

Definition app_production : gmap string value :=
  {[ "extends" := VStr "base"; "name" := VStr "app-production" ]}.

Definition base : gmap string value :=
  {[ "name" := VStr "base"; "fromBase" := VBool true;
     "plugins" := VArr [VStr "clean"] ]}.

Definition loop : gmap string value := {[ "extends" := VStr "loop" ]}.

Definition returns (o : gmap string value) : module :=
  {| exports_call := Some (fun _ => Ok (VObj o));
     exports_get := fun _ => None |}.

(** A file whose named export [custom] returns the bag it was given. *)
Definition echo : module :=
  {| exports_call := Some (fun _ => Ok (VObj ∅));
     exports_get := fun fn =>
       if String.eqb fn "custom"
       then Some (fun params => Ok (VObj {[ "params" := params ]}))
       else None |}.

Definition node_require (p : string) : option module :=
  if String.eqb p "/project/.webpack/app.production.js"
  then Some (returns app_production)
  else if String.eqb p "/project/.webpack/base.js" then Some (returns base)
  else if String.eqb p "/project/.webpack/loop.js" then Some (returns loop)
  else if String.eqb p "/project/.webpack/server.development.js"
  then Some echo
  else None.

(** [webpack-merge] to one level: the keys of both, the second object
    winning except where both hold arrays, which are concatenated. *)
Definition merge (a b : value) : value :=
  match a, b with
  | VObj x, VObj y =>
      VObj (union_with
              (fun u v =>
                 Some match u, v with
                      | VArr l1, VArr l2 => VArr (l1 ++ l2)
                      | _, _ => v
                      end) x y)
  | _, _ => b
  end.

(** A run of the runner in numbers: lines logged, children forked,
    children killed, callbacks made, and whether a child is held at the
    end. *)
Definition summary (r : result (unit * machine * list effect))
  : option (nat * nat * nat * nat * bool * option child) :=
  match r with
  | Ok (_, m, t) =>
      Some (count is_log t, count is_fork t, count is_kill t,
            count is_callback t, _running (this m), _instance (this m))
  | Throw _ => None
  end.

(** What a call of [externals] binds at the given names, and how many
    names it binds in all. *)
Definition bindings (names : list string) (r : result (gmap string string))
  : list (option string) * nat :=
  match r with
  | Ok m => (map (fun k => m !! k) names, size m)
  | Throw _ => ([], 0)
  end.

End Sample.

(** ** Notions used in the further statements *)

(** The children forked and not yet killed after a list of effects, given
    those alive before it, oldest first. *)
Fixpoint alive (t : list effect) (before : list child) : list child :=
  match t with
  | [] => before
  | Fork _ h :: t' => alive t' (before ++ [h])
  | Kill h :: t' =>
      alive t' (List.filter (fun x => negb (Nat.eqb x h)) before)
  | _ :: t' => alive t' before
  end.

(** The handle an instance holds, as a list. *)
Definition held (r : runner) : list child :=
  match _instance r with
  | Some h => [h]
  | None => []
  end.

(** The flag and the handle agree. *)
Definition consistent (r : runner) : Prop :=
  _running r = bool_decide (is_Some (_instance r)).

(** A fork is made from the given path. *)
Definition forked_from (p : option string) (e : effect) : Prop :=
  match e with
  | Fork q _ => q = p
  | _ => True
  end.

(** The colors of [_logColors] and the default of [_log]. *)
Definition log_colors : list string :=
  ["white"; "grey"; "red"; "yellow"; "green"].

(** A logged line is blank or starts with the tag, in one of the colors. *)
Definition well_formed (e : effect) : Prop :=
  match e with
  | Log color text =>
      In color log_colors /\ (text = "" \/ exists msg, text = tagged msg)
  | _ => True
  end.

(** [k] rebuilds of a watched project: [compile] then [done], [k] times. *)
Fixpoint rebuilds (k : nat) : list hook :=
  match k with
  | O => []
  | S k' => Compile :: Done :: rebuilds k'
  end.

(** What [externals] binds a name to, given the extras, the names of the
    union and the ignore list. *)
Definition binding (extras : list (string * string))
  (names ignore : list string) (name : string) : option string :=
  match get extras name with
  | Some path => Some ("commonjs " +:+ path)
  | None =>
      if negb (absent names name) && absent ignore name
      then Some ("commonjs " +:+ name)
      else None
  end.

(** The union [externals] walks: the defaults, the dependencies and, when
    asked for, the development dependencies. *)
Definition union_of (packageJSON : WebpackNodeUtils.manifest)
  (addDev : bool) (defaults : list string) : list string :=
  defaults ++ Object_keys (WebpackNodeUtils.dependencies packageJSON)
  ++ (if addDev
      then Object_keys (WebpackNodeUtils.devDependencies packageJSON)
      else []).

(** The event is a [compile] or a [done]. *)
Definition is_build_event (ev : hook) : bool :=
  match ev with
  | AfterEmit _ => false
  | Compile | Done => true
  end.

(** ** The test double of the compiler (tests/mocks/compiler.js) and
    [apply] *)

Module FakeCompiler.

(** A registered callback; [trigger] passes it the compilation, or nothing
    when the event has no arguments. *)
Definition listener : Type := option compilation -> M unit.

(** [new FakeCompiler()]. *)
Definition constructor : gmap string listener := ∅.

(** [plugin(event, callback)]. *)
Definition plugin (event : string) (callback : listener)
  (callbacks : gmap string listener) : gmap string listener :=
  <[event := callback]> callbacks.


End FakeCompiler.

Section Apply.

Variable path_resolve : string -> string.
Variable rev : revision.

(** [_onAssetsEmitted] as a callback: without arguments it throws, on
    [compilation.assets] or on [callback()]. *)
Definition on_after_emit : FakeCompiler.listener :=
  fun args =>
    match args with
    | Some c => _onAssetsEmitted path_resolve rev c
    | None => throw (TypeError "Cannot read property 'assets' of undefined")
    end.

(** [apply(compiler)]. *)
Definition apply (compiler : gmap string FakeCompiler.listener)
  : gmap string FakeCompiler.listener :=
  FakeCompiler.plugin "done" (fun _ => _onCompilationEnds)
    (FakeCompiler.plugin "compile" (fun _ => _onCompilationStarts)
       (FakeCompiler.plugin "after-emit" on_after_emit compiler)).

End Apply.



(** ** More concrete inputs *)

Module Probe.

Import WebpackNodeUtils.

(** The instance of [Sample] once its child runs. *)
Definition running_app : runner := started 0 Sample.resolved_app.

(** A compilation of a hot-reloading build: one bundle, one update chunk
    and its source map. *)
Definition compilation_hot : compilation :=
  {| assets := [("main.hot-update.js", mkAsset "./main.hot-update.js");
                ("app", mkAsset "./app.js");
                ("app.js.map", mkAsset "./app.js.map")] |}.

(** A compilation that emitted update chunks only. *)
Definition compilation_updates : compilation :=
  {| assets := [("0.hot-update.js", mkAsset "./0.hot-update.js");
                ("1.hot-update.js", mkAsset "./1.hot-update.js")] |}.

(** The manifest of the README, and the same with its names in another
    order. *)
Definition manifest_readme : manifest :=
  {| dependencies := [("jest-cli", "1.0.0"); ("node-fetch", "1.0.0")];
     devDependencies := [("webpack", "1.0.0");
                         ("webpack-middleware", "1.0.0")] |}.

Definition manifest_swapped : manifest :=
  {| dependencies := [("node-fetch", "1.0.0"); ("jest-cli", "1.0.0")];
     devDependencies := [("webpack-middleware", "1.0.0");
                         ("webpack", "1.0.0")] |}.

(** The mapping of a call, empty when it threw. *)
Definition bound (r : result (gmap string string)) : gmap string string :=
  match r with
  | Ok m => m
  | Throw _ => ∅
  end.

(** Three configurations in a chain, one whose parent is missing and one
    whose function returns [null]. *)
Definition child_config : gmap string value :=
  {[ "extends" := VStr "parent"; "name" := VStr "child" ]}.

Definition parent_config : gmap string value :=
  {[ "extends" := VStr "grand"; "name" := VStr "parent" ]}.

Definition grand_config : gmap string value := {[ "name" := VStr "grand" ]}.

Definition orphan_config : gmap string value :=
  {[ "extends" := VStr "missing" ]}.

Definition node_require (p : string) : option module :=
  if String.eqb p "/project/.webpack/child.js"
  then Some (Sample.returns child_config)
  else if String.eqb p "/project/.webpack/parent.js"
  then Some (Sample.returns parent_config)
  else if String.eqb p "/project/.webpack/grand.js"
  then Some (Sample.returns grand_config)
  else if String.eqb p "/project/.webpack/orphan.js"
  then Some (Sample.returns orphan_config)
  else None.

End Probe.

(** * Facts about strings and lists *)

(** Unfold a handler down to its first read of the instance. *)
Ltac enter h := unfold h, mbind, M_bind, bind, self; cbn [this].

Lemma get_of_key {A} (o : list (string * A)) (k : string) :
  In k (Object_keys o) -> exists x, get o k = Some x.
Proof.
  induction o as [ | [k' v] o IH ]; cbn; [ tauto | ].
  intros [-> | Hin].
  - rewrite String.eqb_refl. eauto.
  - destruct (String.eqb k' k); eauto.
Qed.

Lemma filter_r_pure (p : string -> result bool) (q : string -> bool) l :
  (forall a, In a l -> p a = Ok (q a)) ->
  filter_r p l = Ok (List.filter q l).
Proof.
  induction l as [ | a l IH ]; intros Hp; cbn; [ reflexivity | ].
  rewrite (Hp a) by (left; reflexivity).
  rewrite IH by (intros b Hb; apply Hp; right; exact Hb).
  destruct (q a); reflexivity.
Qed.

Lemma indexOf_negative (s sub : string) :
  (indexOf s sub <? 0)%Z = negb (includes s sub).
Proof.
  unfold indexOf, includes. destruct (String.index 0 sub s); cbn; [ | reflexivity ].
  apply Z.ltb_ge. lia.
Qed.

Lemma absent_false_In (l : list string) (x : string) :
  absent l x = false -> In x l.
Proof.
  unfold absent. intros H. apply negb_false_iff in H.
  apply existsb_exists in H. destruct H as [y [Hy Heq]].
  apply String.eqb_eq in Heq. subst. exact Hy.
Qed.

Lemma head_In {A} (l : list A) (a : A) : head l = Some a -> In a l.
Proof. destruct l; cbn; [ discriminate | ]. intros [= ->]. left. reflexivity. Qed.

Lemma truthy_Some (e : option string) :
  truthy e = true -> e = Some (template e).
Proof. destruct e; cbn; [ reflexivity | discriminate ]. Qed.

Lemma selection_In (e : option string) (entries : list string) :
  truthy (fst (selection e entries)) = true ->
  In (template (fst (selection e entries))) entries.
Proof.
  unfold selection.
  destruct (truthy e && absent entries (template e)) eqn:H1; cbn [fst];
    [ discriminate | ].
  destruct (negb (truthy e) && (List.length entries =? 1)%nat) eqn:H2; cbn [fst].
  { intros Ht. apply head_In. apply truthy_Some. exact Ht. }
  destruct (negb (truthy e) && (1 <? List.length entries)%nat) eqn:H3; cbn [fst].
  { intros Ht. apply head_In. apply truthy_Some. exact Ht. }
  intros Ht. rewrite Ht in H1. cbn in H1. apply absent_false_In. exact H1.
Qed.

Lemma only_callbacks (t : list effect) :
  forallb is_callback t = true ->
  count is_fork t = 0 /\ count is_kill t = 0 /\ count is_log t = 0.
Proof.
  unfold count. induction t as [ | e t IH ]; cbn; [ auto | ].
  intros H. apply andb_true_iff in H. destruct H as [He Ht].
  destruct e; try discriminate. cbn. auto.
Qed.

Lemma includes_spec (s sub : string) :
  sub <> "" -> (includes s sub = true <-> mentions sub s).
Proof.
  intros Hsub. unfold includes, mentions.
  destruct (String.index 0 sub s) as [m | ] eqn:Hi.
  - split; [ intros _ | reflexivity ]. exists m.
    apply (index_correct1 0). exact Hi.
  - split; [ discriminate | ]. intros [n Hn]. exfalso.
    apply (index_correct3 0 n sub s Hi Hsub); [ lia | exact Hn ].
Qed.






(** * The runner: start and stop *)

Lemma done_starts (r : runner) (n : nat) :
  truthy (_entry r) = true -> _running r = false ->
  _onCompilationEnds {| this := r; forked := n |}
  = Ok (tt, {| this := started n r; forked := S n |},
        [Fork (_entryPath r) n; Log "white" "";
         Log "green" (tagged "Starting bundle process")]).
Proof.
  intros He Hr. enter _onCompilationEnds. rewrite He, Hr. reflexivity.
Qed.

Lemma done_idle (r : runner) (n : nat) :
  truthy (_entry r) = false \/ _running r = true ->
  _onCompilationEnds {| this := r; forked := n |}
  = Ok (tt, {| this := r; forked := n |}, []).
Proof.
  intros H. enter _onCompilationEnds.
  destruct H as [H | H]; rewrite H, ?andb_false_r; reflexivity.
Qed.

Lemma compile_stops (r : runner) (n : nat) (h : child) :
  truthy (_entry r) = true -> _running r = true -> _instance r = Some h ->
  _onCompilationStarts {| this := r; forked := n |}
  = Ok (tt, {| this := stopped r; forked := n |},
        [Log "grey" (tagged "Stopping bundle process"); Kill h]).
Proof.
  intros He Hr Hi. enter _onCompilationStarts.
  rewrite He, Hr, Hi. reflexivity.
Qed.

Lemma compile_idle (r : runner) (n : nat) :
  truthy (_entry r) = false \/ _running r = false \/ _instance r = None ->
  _onCompilationStarts {| this := r; forked := n |}
  = Ok (tt, {| this := r; forked := n |}, []).
Proof.
  intros H. enter _onCompilationStarts.
  destruct H as [H | [H | H]]; rewrite H, ?andb_false_r; reflexivity.
Qed.

(** C1. With an entry selected: [done] while not running forks exactly one
    child from the stored entry path, stores its handle and sets running;
    [done] while running forks nothing and changes nothing; [compile] while
    running with a handle held kills exactly that one child, clears the
    handle and sets running to false; [compile] while not running, or with
    no handle, kills nothing and changes nothing. *)
Theorem supervisor_start_stop (r : runner) (n : nat) :
  truthy (_entry r) = true ->
  (_running r = false ->
   _onCompilationEnds {| this := r; forked := n |}
   = Ok (tt, {| this := started n r; forked := S n |},
         [Fork (_entryPath r) n; Log "white" "";
          Log "green" (tagged "Starting bundle process")]))
  /\ (_running r = true ->
      _onCompilationEnds {| this := r; forked := n |}
      = Ok (tt, {| this := r; forked := n |}, []))
  /\ (forall h, _running r = true -> _instance r = Some h ->
      _onCompilationStarts {| this := r; forked := n |}
      = Ok (tt, {| this := stopped r; forked := n |},
            [Log "grey" (tagged "Stopping bundle process"); Kill h]))
  /\ (_running r = false \/ _instance r = None ->
      _onCompilationStarts {| this := r; forked := n |}
      = Ok (tt, {| this := r; forked := n |}, [])).
Proof.
  intros He. repeat split.
  - intros Hr. apply done_starts; assumption.
  - intros Hr. apply done_idle. right. exact Hr.
  - intros h Hr Hi. apply compile_stops; assumption.
  - intros H. apply compile_idle. right. exact H.
Qed.

(** C10. An instance built with a non-empty entry name passes the guard of
    [done] before any [after-emit]: the guard reads the name only, and the
    child is forked with the entry path still null. *)
Theorem done_before_resolution (name : string) (n : nat) :
  name <> "" ->
  _setup (constructor (Some name)) = false
  /\ _entryPath (constructor (Some name)) = None
  /\ _onCompilationEnds {| this := constructor (Some name); forked := n |}
     = Ok (tt, {| this := started n (constructor (Some name)); forked := S n |},
           [Fork None n; Log "white" "";
            Log "green" (tagged "Starting bundle process")]).
Proof.
  intros Hname. split; [ reflexivity | ]. split; [ reflexivity | ].
  assert (Ht : truthy (Some name) = true).
  { cbn. destruct name; [ congruence | reflexivity ]. }
  rewrite done_starts.
  - reflexivity.
  - unfold constructor. rewrite Ht. exact Ht.
  - reflexivity.
Qed.

(** * The runner: resolving the entry *)

Section RunnerFacts.

Variable path_resolve : string -> string.
Variable rev : revision.

Lemma entries_of_filter (c : compilation) :
  entries_of rev c = Ok (List.filter (keeps rev c) (Object_keys (assets c))).
Proof.
  unfold entries_of. apply filter_r_pure. intros a Ha.
  unfold is_entry, keeps, hot_update_fragment, finished_script.
  destruct rev.
  - rewrite indexOf_negative. reflexivity.
  - destruct (includes a "hot-update"); [ reflexivity | ].
    destruct (get_of_key _ _ Ha) as [x ->]. reflexivity.
Qed.

Lemma filter_keys_get (c : compilation) (a : string) :
  In a (List.filter (keeps rev c) (Object_keys (assets c))) ->
  exists x, get (assets c) a = Some x.
Proof. intros H. apply filter_In in H. apply get_of_key. tauto. Qed.

Lemma head_get (c : compilation) (a : string) :
  head (List.filter (keeps rev c) (Object_keys (assets c))) = Some a ->
  exists x, get (assets c) a = Some x.
Proof. intros Hh. apply filter_keys_get. apply head_In. exact Hh. Qed.

(** The first [after-emit] of an instance, in closed form. *)
Lemma after_emit_first (c : compilation) (r : runner) (n : nat) :
  _setup r = false ->
  let entries := List.filter (keeps rev c) (Object_keys (assets c)) in
  let sel := selection (_entry r) entries in
  let loc := located path_resolve c (set_entry (fst sel) (set_setup true r)) in
  _onAssetsEmitted path_resolve rev c {| this := r; forked := n |}
  = Ok (tt, {| this := fst loc; forked := n |},
        Log "white" "" :: snd sel ++ snd loc ++ [Callback]).
Proof.
  intros Hs entries sel loc. subst loc sel. unfold located, selection.
  destruct r as [e p run inst s0]. cbn in Hs. subst s0.
  enter _onAssetsEmitted. cbn [_setup negb]. unfold lift.
  rewrite entries_of_filter. fold entries.
  cbn [_entry set_entry set_setup].
  assert (Hhead : forall a, head entries = Some a ->
                            exists x, get (assets c) a = Some x)
    by (intros a; apply head_get).
  assert (Hkept : forall s, absent entries s = false ->
                            exists x, get (assets c) s = Some x)
    by (intros s Ha; apply filter_keys_get, absent_false_In, Ha).
  clearbody entries.
  destruct e as [ [ | ch s ] | ].
  - (* a falsy pre-set name cannot come out of the constructor; the
       handler treats it like no name *)
    destruct entries as [ | a [ | b l ] ]; [ reflexivity | | ];
      destruct (Hhead a eq_refl) as [x Hx];
      destruct a as [ | ch a ]; cbn; rewrite ?Hx; reflexivity.
  - cbn. destruct (absent entries (String ch s)) eqn:Ha; [ reflexivity | ].
    destruct (Hkept _ Ha) as [x Hx]. cbn. rewrite Hx. reflexivity.
  - destruct entries as [ | a [ | b l ] ]; [ reflexivity | | ];
      destruct (Hhead a eq_refl) as [x Hx];
      destruct a as [ | ch a ]; cbn; rewrite ?Hx; reflexivity.
Qed.

(** Every later [after-emit] only calls the continuation. *)
Lemma after_emit_later (c : compilation) (r : runner) (n : nat) :
  _setup r = true ->
  _onAssetsEmitted path_resolve rev c {| this := r; forked := n |}
  = Ok (tt, {| this := r; forked := n |}, [Callback]).
Proof.
  intros Hs. enter _onAssetsEmitted. rewrite Hs. reflexivity.
Qed.

(** [deliver] on a run of [after-emit] events once the flag is set. *)
Lemma deliver_after_emits (cs : list compilation) (r : runner) (n : nat) :
  _setup r = true ->
  deliver path_resolve rev (map AfterEmit cs) {| this := r; forked := n |}
  = Ok (tt, {| this := r; forked := n |}, repeat Callback (List.length cs)).
Proof.
  intros Hs. induction cs as [ | c cs IH ]; [ reflexivity | ].
  cbn [map deliver List.length repeat handler].
  unfold mbind, M_bind, bind. rewrite (after_emit_later c r n Hs), IH.
  reflexivity.
Qed.

Lemma located_fields (c : compilation) (r : runner) :
  _entry (fst (located path_resolve c r)) = _entry r
  /\ _setup (fst (located path_resolve c r)) = _setup r
  /\ _running (fst (located path_resolve c r)) = _running r
  /\ _instance (fst (located path_resolve c r)) = _instance r.
Proof.
  unfold located. destruct (truthy (_entry r)); [ | tauto ].
  destruct (get (assets c) (template (_entry r))); cbn; tauto.
Qed.

(** What any [after-emit] does to the instance and to the host. *)
Lemma after_emit_shape (c : compilation) (r : runner) (n : nat) :
  exists r' t,
    _onAssetsEmitted path_resolve rev c {| this := r; forked := n |}
    = Ok (tt, {| this := r'; forked := n |}, t ++ [Callback])
    /\ forallb is_log t = true
    /\ _setup r' = true
    /\ _running r' = _running r
    /\ _instance r' = _instance r
    /\ (_setup r = true -> r' = r /\ t = []).
Proof.
  destruct (_setup r) eqn:Hs.
  - exists r, []. rewrite (after_emit_later c r n Hs). repeat split; auto.
  - pose proof (after_emit_first c r n Hs) as H. cbv zeta in H.
    set (sel := selection (_entry r) _) in *.
    set (loc := located path_resolve c _) in *.
    exists (fst loc), (Log "white" "" :: snd sel ++ snd loc).
    split; [ rewrite H, <- app_comm_cons, <- app_assoc; reflexivity | ].
    destruct (located_fields c (set_entry (fst sel) (set_setup true r)))
      as (_ & H2 & H3 & H4). fold loc in H2, H3, H4.
    repeat split; try assumption; try discriminate.
    cbn [forallb is_log andb]. rewrite forallb_app.
    apply andb_true_iff. split.
    + subst sel. unfold selection.
      repeat match goal with |- context [if ?b then _ else _] => destruct b end;
        reflexivity.
    + subst loc. unfold located.
      repeat match goal with
             | |- context [if ?b then _ else _] => destruct b
             | |- context [match ?o with Some _ => _ | None => _ end] => destruct o
             end; reflexivity.
Qed.

(** While no entry is selected and the flag is set, every event leaves the
    instance and the host as they are. *)
Lemma inert_handler (ev : hook) (r : runner) (n : nat) :
  _setup r = true -> truthy (_entry r) = false ->
  exists t,
    handler path_resolve rev ev {| this := r; forked := n |}
    = Ok (tt, {| this := r; forked := n |}, t)
    /\ forallb is_callback t = true.
Proof.
  intros Hs He. destruct ev as [ c | | ]; cbn [handler].
  - exists [Callback]. rewrite (after_emit_later c r n Hs). auto.
  - exists []. rewrite compile_idle by (left; exact He). auto.
  - exists []. rewrite done_idle by (left; exact He). auto.
Qed.

Lemma inert_deliver (evs : list hook) (r : runner) (n : nat) :
  _setup r = true -> truthy (_entry r) = false ->
  exists t,
    deliver path_resolve rev evs {| this := r; forked := n |}
    = Ok (tt, {| this := r; forked := n |}, t)
    /\ forallb is_callback t = true.
Proof.
  intros Hs He. induction evs as [ | ev evs IH ].
  - exists []. auto.
  - destruct (inert_handler ev r n Hs He) as (t1 & H1 & Hc1).
    destruct IH as (t2 & H2 & Hc2).
    exists (t1 ++ t2). cbn [deliver]. unfold mbind, M_bind, bind.
    rewrite H1, H2. split; [ reflexivity | ].
    rewrite forallb_app, Hc1, Hc2. reflexivity.
Qed.

(** C2. The first [after-emit] resolves the entry in this order: a pre-set
    name that is not a candidate is reported, cleared, and the candidates
    are listed; with no name and one candidate, that one is selected; with
    no name and several, the first is selected, a warning is logged and the
    candidates are listed; a pre-set name that is a candidate is kept and
    confirmed.  Whenever a name is selected at the end, the resolved path
    of its asset is stored. *)
Theorem entry_resolution (c : compilation) (r : runner) (n : nat) :
  _setup r = false ->
  let entries := List.filter (keeps rev c) (Object_keys (assets c)) in
  let available :=
    Log "grey" (tagged ("These are the available entries: "
                        +:+ join ", " entries)) in
  exists (r' : runner) (logs path : list effect),
    _onAssetsEmitted path_resolve rev c {| this := r; forked := n |}
    = Ok (tt, {| this := r'; forked := n |},
          Log "white" "" :: logs ++ path ++ [Callback])
    /\ (truthy (_entry r) = true ->
        absent entries (template (_entry r)) = true ->
        _entry r' = None
        /\ logs = [Log "red" (tagged ("The required entry ("
                                      +:+ template (_entry r)
                                      +:+ ") doesn't exist")); available])
    /\ (truthy (_entry r) = false -> forall a, entries = [a] ->
        _entry r' = Some a
        /\ logs = [Log "green" (tagged ("Using the only available entry: "
                                        +:+ a))])
    /\ (truthy (_entry r) = false -> forall a b l, entries = a :: b :: l ->
        _entry r' = Some a
        /\ logs = [Log "yellow" (tagged ("Doing fallback to the first entry: "
                                         +:+ a)); available])
    /\ (truthy (_entry r) = true ->
        absent entries (template (_entry r)) = false ->
        _entry r' = _entry r
        /\ logs = [Log "green" (tagged ("Using the following entry: "
                                        +:+ template (_entry r)))])
    /\ (truthy (_entry r') = true ->
        exists x, get (assets c) (template (_entry r')) = Some x
        /\ _entryPath r' = Some (path_resolve (existsAt x))
        /\ path = [Log "green" (tagged ("Entry file: "
                                        +:+ path_resolve (existsAt x)))])
    /\ (truthy (_entry r') = false ->
        _entryPath r' = _entryPath r /\ path = []).
Proof.
  intros Hs entries available.
  pose proof (after_emit_first c r n Hs) as H. cbv zeta in H.
  fold entries in H.
  set (sel := selection (_entry r) entries) in *.
  set (r1 := set_entry (fst sel) (set_setup true r)) in *.
  exists (fst (located path_resolve c r1)), (snd sel), (snd (located path_resolve c r1)).
  split; [ exact H | clear H ].
  assert (He : _entry (fst (located path_resolve c r1)) = fst sel).
  { destruct (located_fields c r1) as (He & _). rewrite He. reflexivity. }
  rewrite He.
  assert (Hget : truthy (fst sel) = true ->
                 exists x, get (assets c) (template (fst sel)) = Some x).
  { intros Ht. apply filter_keys_get. apply selection_In. exact Ht. }
  assert (Hloc : located path_resolve c r1
                 = if truthy (fst sel) then
                     match get (assets c) (template (fst sel)) with
                     | Some x =>
                         (set_entryPath (Some (path_resolve (existsAt x))) r1,
                          [Log "green" (tagged ("Entry file: "
                                                +:+ path_resolve (existsAt x)))])
                     | None => (r1, [])
                     end
                   else (r1, [])) by reflexivity.
  subst available. clearbody entries.
  split; [ | split; [ | split; [ | split; [ | split ] ] ] ].
  - intros Ht Ha. subst sel. unfold selection. rewrite Ht, Ha. split; reflexivity.
  - intros Ht a ->. subst sel. unfold selection. rewrite Ht. split; reflexivity.
  - intros Ht a b l ->. subst sel. unfold selection. rewrite Ht.
    split; reflexivity.
  - intros Ht Ha. subst sel. unfold selection. rewrite Ht, Ha.
    split; reflexivity.
  - intros Ht. destruct (Hget Ht) as [x Hx]. exists x.
    rewrite Hloc, Ht, Hx. repeat split; reflexivity.
  - intros Ht. rewrite Hloc, Ht. split; reflexivity.
Qed.

(** C6. Over any run of [after-emit] events the resolution runs once: the
    first event sets the flag, emits only log lines before its callback,
    and every later event leaves the instance as it is and emits nothing
    but its callback.  Each invocation, first or later, returns without an
    exception and calls the callback exactly once, as its last effect. *)
Theorem after_emit_once (c : compilation) (cs : list compilation)
  (r : runner) (n : nat) :
  exists (r' : runner) (t : list effect),
    _onAssetsEmitted path_resolve rev c {| this := r; forked := n |}
    = Ok (tt, {| this := r'; forked := n |}, t ++ [Callback])
    /\ forallb is_log t = true
    /\ count is_callback (t ++ [Callback]) = 1
    /\ _setup r' = true
    /\ (forall c',
          _onAssetsEmitted path_resolve rev c' {| this := r'; forked := n |}
          = Ok (tt, {| this := r'; forked := n |}, [Callback]))
    /\ deliver path_resolve rev (map AfterEmit (c :: cs))
         {| this := r; forked := n |}
       = Ok (tt, {| this := r'; forked := n |},
             t ++ repeat Callback (S (List.length cs))).
Proof.
  destruct (after_emit_shape c r n) as (r' & t & H & Hlog & Hs & _).
  exists r', t. split; [ exact H | ]. split; [ exact Hlog | ].
  split.
  { unfold count. rewrite List.filter_app, List.length_app. cbn.
    assert (Hz : List.filter is_callback t = []).
    { clear H. induction t as [ | e t IH ]; [ reflexivity | ].
      cbn in Hlog. apply andb_true_iff in Hlog. destruct Hlog as [He Ht].
      destruct e; try discriminate. cbn. apply IH. exact Ht. }
    rewrite Hz. reflexivity. }
  split; [ exact Hs | ]. split.
  - intros c'. apply after_emit_later. exact Hs.
  - cbn [map deliver handler]. unfold mbind, M_bind, bind.
    rewrite H, (deliver_after_emits cs r' n Hs).
    rewrite <- app_assoc. reflexivity.
Qed.

(** C7. When an [after-emit] ends with no entry selected, every later
    event is a no-op: whatever the host delivers afterwards, the instance
    and the host stay as they are, no exception is raised, and nothing is
    forked, killed or logged. *)
Theorem unresolved_is_inert (c : compilation) (r r1 : runner) (n n1 : nat)
  (t1 : list effect) (evs : list hook) :
  _onAssetsEmitted path_resolve rev c {| this := r; forked := n |}
  = Ok (tt, {| this := r1; forked := n1 |}, t1) ->
  truthy (_entry r1) = false ->
  (handler path_resolve rev Compile {| this := r1; forked := n1 |}
   = Ok (tt, {| this := r1; forked := n1 |}, []))
  /\ (handler path_resolve rev Done {| this := r1; forked := n1 |}
      = Ok (tt, {| this := r1; forked := n1 |}, []))
  /\ exists t,
       deliver path_resolve rev evs {| this := r1; forked := n1 |}
       = Ok (tt, {| this := r1; forked := n1 |}, t)
       /\ count is_fork t = 0 /\ count is_kill t = 0 /\ count is_log t = 0.
Proof.
  intros H He.
  assert (Hs : _setup r1 = true).
  { destruct (after_emit_shape c r n) as (r' & t & H' & _ & Hs & _).
    rewrite H in H'. injection H' as -> _ _. exact Hs. }
  split; [ apply compile_idle; left; exact He | ].
  split; [ apply done_idle; left; exact He | ].
  destruct (inert_deliver evs r1 n1 Hs He) as (t & Ht & Hc).
  exists t. split; [ exact Ht | ]. apply only_callbacks. exact Hc.
Qed.

End RunnerFacts.

(** * The candidate filter *)

(** The older revision applies the first test only: a style sheet is a
    candidate there. *)
Example hot_update_filter_keeps_other_files :
  entries_of HotUpdateFilter
    {| assets := [("styles.css", mkAsset "/dist/styles.css")] |}
  = Ok ["styles.css"].
Proof. reflexivity. Qed.



(** * The externals resolver *)

Import WebpackNodeUtils.

Lemma absent_spec (l : list string) (x : string) :
  absent l x = true <-> ~ In x l.
Proof.
  unfold absent. rewrite negb_true_iff. split.
  - intros H Hin. apply not_true_iff_false in H. apply H.
    apply existsb_exists. exists x. split; [ exact Hin | apply String.eqb_refl ].
  - intros H. apply not_true_iff_false. intros Hex. apply H.
    apply existsb_exists in Hex. destruct Hex as (y & Hy & Heq).
    apply String.eqb_eq in Heq. subst. exact Hy.
Qed.

Lemma absent_cons (l : list string) (p x : string) :
  absent (p :: l) x = negb (String.eqb x p) && absent l x.
Proof. unfold absent. cbn. apply negb_orb. Qed.

Lemma absent_keys_get {A} (o : list (string * A)) (k : string) :
  absent (Object_keys o) k = true <-> get o k = None.
Proof.
  induction o as [ | [k' v] o IH ]; [ cbn; tauto | ].
  cbn [Object_keys map fst get]. rewrite absent_cons.
  rewrite (String.eqb_sym k k').
  destruct (String.eqb k' k); cbn; [ split; discriminate | exact IH ].
Qed.

(** The first loop of [externals], read back key by key. *)
Lemma packages_lookup (ignoreDeps names : list string)
  (r0 : gmap string string) (k : string) :
  fold_left
    (fun (result : gmap string string) pckg =>
       if absent ignoreDeps pckg
       then <[pckg := "commonjs " +:+ pckg]> result
       else result) names r0 !! k
  = if negb (absent names k) && absent ignoreDeps k
    then Some ("commonjs " +:+ k)
    else r0 !! k.
Proof.
  revert r0. induction names as [ | p names IH ]; intros r0; [ reflexivity | ].
  cbn [fold_left]. rewrite IH, absent_cons.
  destruct (String.eqb k p) eqn:Hkp.
  - apply String.eqb_eq in Hkp. subst p. cbn [negb andb].
    destruct (absent ignoreDeps k);
      rewrite ?andb_false_r, ?andb_true_r; cbn [andb];
      [ | reflexivity ].
    rewrite lookup_insert_eq. destruct (negb (absent names k)); reflexivity.
  - apply String.eqb_neq in Hkp. cbn [negb andb].
    destruct (negb (absent names k) && absent ignoreDeps k); [ reflexivity | ].
    destruct (absent ignoreDeps p); [ | reflexivity ].
    apply lookup_insert_ne. congruence.
Qed.

(** The second loop, over the keys of [extras]. *)
Lemma extras_lookup (ex : list (string * string)) (keys : list string)
  (r0 : gmap string string) (k : string) :
  fold_left
    (fun (result : gmap string string) name =>
       <[name := "commonjs " +:+ template_u (get ex name)]> result) keys r0 !! k
  = if absent keys k then r0 !! k
    else Some ("commonjs " +:+ template_u (get ex k)).
Proof.
  revert r0. induction keys as [ | p keys IH ]; intros r0; [ reflexivity | ].
  cbn [fold_left]. rewrite IH, absent_cons.
  destruct (String.eqb k p) eqn:Hkp.
  - apply String.eqb_eq in Hkp. subst p. cbn [negb andb].
    destruct (absent keys k); [ apply lookup_insert_eq | reflexivity ].
  - apply String.eqb_neq in Hkp. cbn [negb andb].
    destruct (absent keys k); [ | reflexivity ].
    apply lookup_insert_ne. congruence.
Qed.


(** * The configuration loader *)

(** The defaults [config] puts in the bag before the caller's parameters. *)
Lemma config_params_lookup (now : Z) (useHash : option bool)
  (params : option (gmap string value)) (k : string) :
  config_params now useHash params !! k
  = match default ∅ params !! k with
    | Some v => Some v
    | None =>
        if String.eqb k "hash" then
          Some (if truthy_b useHash then VNum now else VStr "")
        else if String.eqb k "hashStr" then
          Some (VStr (if truthy_b useHash then "." +:+ pretty now else ""))
        else None
    end.
Proof.
  unfold config_params, Object_assign. rewrite lookup_union.
  destruct (default ∅ params !! k) as [v | ].
  - destruct (_ !! k); reflexivity.
  - rewrite (left_id None _).
    destruct (String.eqb k "hash") eqn:H1.
    + apply String.eqb_eq in H1. subst k. rewrite lookup_insert_eq.
      reflexivity.
    + apply String.eqb_neq in H1. rewrite lookup_insert_ne by congruence.
      destruct (String.eqb k "hashStr") eqn:H2.
      * apply String.eqb_eq in H2. subst k. rewrite lookup_singleton_eq.
        destruct (truthy_b useHash); reflexivity.
      * apply String.eqb_neq in H2. apply lookup_singleton_ne. congruence.
Qed.

Section LoaderFacts.

Variable rootPath : string.
Variable path_join : string -> string -> string.
Variable node_require : string -> option module.
Variable merge : value -> value -> value.

Local Abbreviation loadConfig := (_loadConfig rootPath path_join node_require merge).


(** One step of [_loadConfig] for a configuration that extends another. *)
Lemma loadConfig_extends (fuel : nat) (directory name : string)
  (params : value) (fn : option string) (m : module) (f : jsfun)
  (o : gmap string value) (parent : value) :
  node_require (path_join rootPath (path_join directory (name +:+ ".js")))
  = Some m ->
  (if truthy fn then exports_get m (template fn) else exports_call m)
  = Some f ->
  f params = Ok (VObj o) ->
  o !! "extends" = Some parent ->
  truthy_v parent = true ->
  loadConfig (S fuel) directory name params fn
  = match loadConfig fuel directory (to_string parent) params None with
    | None => None
    | Some (Throw e) => Some (Throw e)
    | Some (Ok baseConfig) =>
        Some (Ok (merge baseConfig (VObj (delete "extends" o))))
    end.
Proof.
  intros Hm Hf Hc Hext Ht. cbn [_loadConfig].
  unfold require, call, call_named. rewrite Hm.
  destruct (truthy fn); rewrite Hf, Hc; cbn [get_property];
    rewrite Hext; cbn [from_option id]; rewrite Ht; reflexivity.
Qed.

(** One step for a configuration without [extends]. *)
Lemma loadConfig_plain (fuel : nat) (directory name : string)
  (params : value) (fn : option string) (m : module) (f : jsfun)
  (c ext : value) :
  node_require (path_join rootPath (path_join directory (name +:+ ".js")))
  = Some m ->
  (if truthy fn then exports_get m (template fn) else exports_call m)
  = Some f ->
  f params = Ok c ->
  get_property c "extends" = Ok ext ->
  truthy_v ext = false ->
  loadConfig (S fuel) directory name params fn = Some (Ok c).
Proof.
  intros Hm Hf Hc Hext Ht. cbn [_loadConfig].
  unfold require, call, call_named. rewrite Hm.
  destruct (truthy fn); rewrite Hf, Hc, Hext, Ht; reflexivity.
Qed.



(** C8. [config] requires [{directory}/{target}.{type}.js], calls its
    default export, or the export [fn] names, with the bag made of [hash]
    and [hashStr] overridden by the caller's parameters, and returns the
    object that call produced when its [extends] is absent or falsy.
    [hash] is the clock reading when [useHash] holds and the empty string
    otherwise; [hashStr] is a dot followed by it, or the empty string. *)
Theorem config_returns_configuration (now : Z) (fuel : nat)
  (directory target type : string) (useHash : option bool)
  (params : option (gmap string value)) (fn : option string)
  (m : module) (f : jsfun) (c ext : value) :
  node_require
    (path_join rootPath
       (path_join directory ((target +:+ "." +:+ type) +:+ ".js")))
  = Some m ->
  (if truthy fn then exports_get m (template fn) else exports_call m)
  = Some f ->
  f (VObj (config_params now useHash params)) = Ok c ->
  get_property c "extends" = Ok ext ->
  truthy_v ext = false ->
  config rootPath path_join node_require merge now (S fuel)
    directory target type useHash params fn
  = Some (Ok c)
  /\ forall k,
       config_params now useHash params !! k
       = match default ∅ params !! k with
         | Some v => Some v
         | None =>
             if String.eqb k "hash" then
               Some (if truthy_b useHash then VNum now else VStr "")
             else if String.eqb k "hashStr" then
               Some (VStr (if truthy_b useHash then "." +:+ pretty now
                           else ""))
             else None
         end.
Proof.
  intros Hm Hf Hc Hext Ht. split; [ | apply config_params_lookup ].
  unfold config.
  apply (loadConfig_plain fuel directory _ _ _ m f c ext); try assumption.
  destruct (truthy fn) eqn:Hfn; [ rewrite Hfn; exact Hf | exact Hf ].
Qed.

(** C9, as the code has it.  With [useHash] set and neither [hash] nor
    [hashStr] among the caller's parameters, the bag handed to the
    configuration function has [hash] equal to the clock reading and
    [hashStr] equal to a dot followed by that same [hash]. *)
Theorem hash_fields_consistent (now : Z) (fuel : nat)
  (directory target type : string) (params : option (gmap string value))
  (fn : option string) :
  default ∅ params !! "hash" = None ->
  default ∅ params !! "hashStr" = None ->
  let bag := config_params now (Some true) params in
  config rootPath path_join node_require merge now fuel
    directory target type (Some true) params fn
  = loadConfig fuel directory (target +:+ "." +:+ type) (VObj bag)
      (if truthy fn then fn else Some "")
  /\ bag !! "hash" = Some (VNum now)
  /\ exists hash,
       bag !! "hash" = Some hash
       /\ bag !! "hashStr" = Some (VStr ("." +:+ to_string hash)).
Proof.
  intros H1 H2 bag. split; [ reflexivity | ].
  assert (Hh : bag !! "hash" = Some (VNum now)).
  { subst bag. rewrite config_params_lookup, H1. reflexivity. }
  split; [ exact Hh | ]. exists (VNum now). split; [ exact Hh | ].
  subst bag. rewrite config_params_lookup, H2. reflexivity.
Qed.

End LoaderFacts.

(** C9 as stated fails when the caller overrides [hash]: the bag keeps the
    caller's [hash] next to the [hashStr] made from the clock. *)
Lemma hash_fields_overridden :
  let bag :=
    config_params 1700000000000 (Some true) (Some {[ "hash" := VStr "abc" ]}) in
  bag !! "hash" = Some (VStr "abc")
  /\ bag !! "hashStr" = Some (VStr ".1700000000000")
  /\ ~ (exists hash,
          bag !! "hash" = Some hash
          /\ bag !! "hashStr" = Some (VStr ("." +:+ to_string hash))).
Proof.
  cbv zeta.
  assert (H1 : config_params 1700000000000 (Some true)
                 (Some {[ "hash" := VStr "abc" ]}) !! "hash"
               = Some (VStr "abc")).
  { rewrite config_params_lookup. reflexivity. }
  assert (H2 : config_params 1700000000000 (Some true)
                 (Some {[ "hash" := VStr "abc" ]}) !! "hashStr"
               = Some (VStr ".1700000000000")).
  { rewrite config_params_lookup. reflexivity. }
  split; [ exact H1 | ]. split; [ exact H2 | ].
  intros (hash & Hh & Hs). rewrite H1 in Hh. injection Hh as <-.
  rewrite H2 in Hs. discriminate.
Qed.

(** * The statements on the concrete host *)

Lemma supervisor_start_stop_witness :
  truthy (_entry Sample.resolved_app) = true
  /\ _onCompilationEnds {| this := Sample.resolved_app; forked := 0 |}
     = Ok (tt, {| this := started 0 Sample.resolved_app; forked := 1 |},
           [Fork (Some "/project/./app.js") 0; Log "white" "";
            Log "green" (tagged "Starting bundle process")]).
Proof.
  split; [ reflexivity | ].
  apply (proj1 (supervisor_start_stop Sample.resolved_app 0 eq_refl)).
  reflexivity.
Defined.

Lemma done_before_resolution_witness :
  "app" <> ""
  /\ _onCompilationEnds {| this := constructor (Some "app"); forked := 0 |}
     = Ok (tt, {| this := started 0 (constructor (Some "app")); forked := 1 |},
           [Fork None 0; Log "white" "";
            Log "green" (tagged "Starting bundle process")]).
Proof.
  split; [ discriminate | ].
  apply (done_before_resolution "app" 0). discriminate.
Defined.

Lemma entry_resolution_witness :
  _setup (constructor None) = false
  /\ exists r' logs path,
       _onAssetsEmitted Sample.path_resolve HotUpdateFilter
         Sample.compilation_two {| this := constructor None; forked := 0 |}
       = Ok (tt, {| this := r'; forked := 0 |},
             Log "white" "" :: logs ++ path ++ [Callback])
       /\ _entry r' = Some "backend"
       /\ _entryPath r' = Some "/project/./backend.js".
Proof.
  split; [ reflexivity | ].
  destruct (entry_resolution Sample.path_resolve HotUpdateFilter
              Sample.compilation_two (constructor None) 0 eq_refl)
    as (r' & logs & path & H & _ & _ & H3 & _ & H5 & _).
  exists r', logs, path. split; [ exact H | ].
  destruct (H3 eq_refl "backend" "app" [] eq_refl) as [He _].
  split; [ exact He | ].
  rewrite He in H5. destruct (H5 eq_refl) as (x & Hx & Hp & _).
  cbn in Hx. injection Hx as <-. exact Hp.
Defined.

Lemma unresolved_is_inert_witness :
  exists t,
    deliver Sample.path_resolve ScriptFilter [Done; Compile; Done]
      {| this := set_setup true (constructor None); forked := 0 |}
    = Ok (tt, {| this := set_setup true (constructor None); forked := 0 |}, t)
    /\ count is_fork t = 0 /\ count is_kill t = 0 /\ count is_log t = 0.
Proof.
  apply (unresolved_is_inert Sample.path_resolve ScriptFilter
           {| assets := [] |} (constructor None)
           (set_setup true (constructor None)) 0 0
           [Log "white" "";
            Log "green" (tagged "Using the following entry: null"); Callback]
           [Done; Compile; Done]); reflexivity.
Defined.



Lemma config_returns_configuration_witness :
  config "/project" Sample.path_join Sample.node_require Sample.merge
    1700000000000 1 ".webpack" "server" "development" (Some true)
    (Some {[ "paramOne" := VStr "charito" ]}) (Some "custom")
  = Some (Ok (VObj {[ "params" :=
                        VObj (config_params 1700000000000 (Some true)
                                (Some {[ "paramOne" := VStr "charito" ]})) ]})).
Proof.
  apply (config_returns_configuration "/project" Sample.path_join
           Sample.node_require Sample.merge 1700000000000 0
           ".webpack" "server" "development" (Some true)
           (Some {[ "paramOne" := VStr "charito" ]}) (Some "custom")
           Sample.echo
           (fun params => Ok (VObj {[ "params" := params ]}))
           _ VUndefined);
    reflexivity.
Defined.

Lemma hash_fields_consistent_witness :
  config_params 1700000000000 (Some true)
    (Some {[ "paramOne" := VStr "charito" ]}) !! "hash"
  = Some (VNum 1700000000000)
  /\ exists hash,
       config_params 1700000000000 (Some true)
         (Some {[ "paramOne" := VStr "charito" ]}) !! "hash" = Some hash
       /\ config_params 1700000000000 (Some true)
            (Some {[ "paramOne" := VStr "charito" ]}) !! "hashStr"
          = Some (VStr ("." +:+ to_string hash)).
Proof.
  apply (hash_fields_consistent "/project" Sample.path_join
           Sample.node_require Sample.merge 1700000000000 1
           ".webpack" "server" "development"
           (Some {[ "paramOne" := VStr "charito" ]}) (Some "custom"));
    reflexivity.
Defined.

(** * Worked examples *)

(** The scenarios of the runner's test suite, in both revisions. *)
Example test_entry_found (rev : revision) :
  _onAssetsEmitted Sample.path_resolve rev Sample.compilation_two
    {| this := constructor (Some "app"); forked := 0 |}
  = Ok (tt, {| this := Sample.resolved_app; forked := 0 |},
        [Log "white" "";
         Log "green" (tagged "Using the following entry: app");
         Log "green" (tagged "Entry file: /project/./app.js"); Callback]).
Proof. destruct rev; reflexivity. Qed.

Example test_entry_not_found (rev : revision) :
  _onAssetsEmitted Sample.path_resolve rev Sample.compilation_two
    {| this := constructor (Some "random"); forked := 0 |}
  = Ok (tt, {| this := set_setup true (constructor None); forked := 0 |},
        [Log "white" "";
         Log "red" (tagged "The required entry (random) doesn't exist");
         Log "grey" (tagged "These are the available entries: backend, app");
         Callback]).
Proof. destruct rev; reflexivity. Qed.

Example test_first_entry (rev : revision) :
  _onAssetsEmitted Sample.path_resolve rev Sample.compilation_two
    {| this := constructor None; forked := 0 |}
  = Ok (tt,
        {| this := {| _entry := Some "backend";
                      _entryPath := Some "/project/./backend.js";
                      _running := false; _instance := None;
                      _setup := true |};
           forked := 0 |},
        [Log "white" "";
         Log "yellow" (tagged "Doing fallback to the first entry: backend");
         Log "grey" (tagged "These are the available entries: backend, app");
         Log "green" (tagged "Entry file: /project/./backend.js"); Callback]).
Proof. destruct rev; reflexivity. Qed.

Example test_restart (rev : revision) :
  Sample.summary
    (deliver Sample.path_resolve rev
       [AfterEmit Sample.compilation_two; Done;
        Compile; Done; Compile; Done; Compile; Done]
       {| this := constructor (Some "app"); forked := 0 |})
  = Some (14, 4, 3, 1, true, Some 3).
Proof. destruct rev; vm_compute; reflexivity. Qed.

Example test_second_done_ignored (rev : revision) :
  Sample.summary
    (deliver Sample.path_resolve rev
       [AfterEmit Sample.compilation_two; Done; Done]
       {| this := constructor (Some "app"); forked := 0 |})
  = Some (5, 1, 0, 1, true, Some 0).
Proof. destruct rev; vm_compute; reflexivity. Qed.

Example test_compile_when_stopped (rev : revision) :
  Sample.summary
    (deliver Sample.path_resolve rev
       [AfterEmit Sample.compilation_two; Compile]
       {| this := constructor (Some "app"); forked := 0 |})
  = Some (3, 0, 0, 1, false, None).
Proof. destruct rev; vm_compute; reflexivity. Qed.

(** The configuration that extends [base], merged. *)
Example load_app_production :
  _loadConfig "/project" Sample.path_join Sample.node_require Sample.merge
    2 ".webpack" "app.production" (VObj ∅) None
  = Some (Ok (VObj {[ "name" := VStr "app-production";
                      "fromBase" := VBool true;
                      "plugins" := VArr [VStr "clean"] ]})).
Proof. vm_compute. reflexivity. Qed.

(** The manifest of the README. *)
Example externals_readme :
  let pkg := {| dependencies := [("jest-cli", "1.0.0"); ("node-fetch", "1.0.0")];
                devDependencies := [("webpack", "1.0.0");
                                    ("webpack-middleware", "1.0.0")] |} in
  let ext := externals "/project" Sample.path_join (fun _ => Some pkg) in
  Sample.bindings ["jest-cli"; "node-fetch"; "webpack"; "normalize.css"]
    (ext (Some [("normalize.css", "modules/custom.js")]) None (Some [])
       (Some ["node-fetch"; "normalize.css"]))
  = ([Some "commonjs jest-cli"; None; None; Some "commonjs modules/custom.js"],
     2)
  /\ Sample.bindings ["jest-cli"; "webpack"; "webpack-middleware"]
       (ext (Some []) (Some true) (Some []) (Some []))
     = ([Some "commonjs jest-cli"; Some "commonjs webpack";
         Some "commonjs webpack-middleware"], 4)
  /\ Sample.bindings ["webpack-node-utils"; "colors/safe"; "jest-cli"; "webpack"]
       (ext None None None None)
     = ([Some "commonjs webpack-node-utils"; Some "commonjs colors/safe";
         Some "commonjs jest-cli"; None], 4).
Proof. cbv zeta. split; [ | split ]; vm_compute; reflexivity. Qed.

(** * Further properties of the runner *)

Lemma alive_app (t1 t2 : list effect) (before : list child) :
  alive (t1 ++ t2) before = alive t2 (alive t1 before).
Proof.
  revert before. induction t1 as [ | e t1 IH ]; intros before; [ reflexivity | ].
  destruct e; cbn; apply IH.
Qed.

Lemma alive_logs (t : list effect) (before : list child) :
  forallb is_log t = true -> alive t before = before.
Proof.
  induction t as [ | e t IH ]; [ reflexivity | ].
  cbn. intros H. apply andb_true_iff in H. destruct H as [He Ht].
  destruct e; try discriminate. cbn. apply IH. exact Ht.
Qed.

Lemma count_app (p : effect -> bool) (t1 t2 : list effect) :
  count p (t1 ++ t2) = count p t1 + count p t2.
Proof. unfold count. rewrite List.filter_app, List.length_app. reflexivity. Qed.

Lemma count_logs (t : list effect) :
  forallb is_log t = true ->
  count is_fork t = 0 /\ count is_kill t = 0 /\ count is_callback t = 0.
Proof.
  unfold count. induction t as [ | e t IH ]; cbn; [ auto | ].
  intros H. apply andb_true_iff in H. destruct H as [He Ht].
  destruct e; try discriminate. cbn. auto.
Qed.

(** The two outcomes of [compile]. *)
Lemma compile_cases (r : runner) (n : nat) :
  (exists h,
     truthy (_entry r) = true /\ _running r = true /\ _instance r = Some h
     /\ _onCompilationStarts {| this := r; forked := n |}
        = Ok (tt, {| this := stopped r; forked := n |},
              [Log "grey" (tagged "Stopping bundle process"); Kill h]))
  \/ ((truthy (_entry r) = false \/ _running r = false \/ _instance r = None)
      /\ _onCompilationStarts {| this := r; forked := n |}
         = Ok (tt, {| this := r; forked := n |}, [])).
Proof.
  destruct (truthy (_entry r)) eqn:He;
    [ | right; split; [ | apply compile_idle ]; auto ].
  destruct (_running r) eqn:Hr;
    [ | right; split; [ | apply compile_idle ]; auto ].
  destruct (_instance r) as [h | ] eqn:Hi;
    [ | right; split; [ | apply compile_idle ]; auto ].
  left. exists h. repeat split; try reflexivity.
  apply compile_stops; assumption.
Qed.

(** The two outcomes of [done]. *)
Lemma done_cases (r : runner) (n : nat) :
  (truthy (_entry r) = true /\ _running r = false
   /\ _onCompilationEnds {| this := r; forked := n |}
      = Ok (tt, {| this := started n r; forked := S n |},
            [Fork (_entryPath r) n; Log "white" "";
             Log "green" (tagged "Starting bundle process")]))
  \/ ((truthy (_entry r) = false \/ _running r = true)
      /\ _onCompilationEnds {| this := r; forked := n |}
         = Ok (tt, {| this := r; forked := n |}, [])).
Proof.
  destruct (truthy (_entry r)) eqn:He;
    [ | right; split; [ | apply done_idle ]; auto ].
  destruct (_running r) eqn:Hr;
    [ right; split; [ | apply done_idle ]; auto | ].
  left. repeat split. apply done_starts; assumption.
Qed.

Section RunnerMore.

Variable path_resolve : string -> string.
Variable rev : revision.

Local Abbreviation run := (deliver path_resolve rev).
Local Abbreviation on := (handler path_resolve rev).

(** One event: it returns, the fork counter grows by the forks made, and a
    consistent instance stays consistent with the children alive being
    the one it holds. *)
Lemma handler_step (ev : hook) (r : runner) (n : nat) :
  exists r' t,
    on ev {| this := r; forked := n |}
    = Ok (tt, {| this := r'; forked := n + count is_fork t |}, t)
    /\ (consistent r -> consistent r' /\ alive t (held r) = held r').
Proof.
  destruct ev as [ c | | ]; cbn [handler].
  - destruct (after_emit_shape path_resolve rev c r n)
      as (r' & t & H & Hlog & _ & Hr & Hi & _).
    exists r', (t ++ [Callback]).
    destruct (count_logs t Hlog) as (Hf & _).
    rewrite count_app, Hf. change (count is_fork [Callback]) with 0.
    rewrite !Nat.add_0_r. split; [ exact H | ].
    unfold consistent, held. rewrite Hr, Hi, alive_app, (alive_logs t _ Hlog).
    intros Hc. split; [ exact Hc | reflexivity ].
  - destruct (compile_cases r n) as [(h & He & Hr & Hi & H) | (_ & H)].
    + exists (stopped r), [Log "grey" (tagged "Stopping bundle process"); Kill h].
      rewrite H. change (count is_fork _) with 0. rewrite Nat.add_0_r.
      split; [ reflexivity | ]. intros _. unfold consistent, held. cbn.
      rewrite Hi. cbn. rewrite Nat.eqb_refl. split; reflexivity.
    + exists r, []. rewrite H, Nat.add_0_r. split; [ reflexivity | ].
      intros Hc. split; [ exact Hc | reflexivity ].
  - destruct (done_cases r n) as [(He & Hr & H) | (_ & H)].
    + exists (started n r),
        [Fork (_entryPath r) n; Log "white" "";
         Log "green" (tagged "Starting bundle process")].
      rewrite H. change (count is_fork _) with 1. rewrite Nat.add_1_r.
      split; [ reflexivity | ]. unfold consistent, held. rewrite Hr.
      intros Hc. symmetry in Hc. apply bool_decide_eq_false in Hc.
      destruct (_instance r) as [h | ]; [ exfalso; apply Hc; eauto | ].
      cbn. split; reflexivity.
    + exists r, []. rewrite H, Nat.add_0_r. split; [ reflexivity | ].
      intros Hc. split; [ exact Hc | reflexivity ].
Qed.

Lemma deliver_step (evs : list hook) (r : runner) (n : nat) :
  exists r' t,
    run evs {| this := r; forked := n |}
    = Ok (tt, {| this := r'; forked := n + count is_fork t |}, t)
    /\ (consistent r -> consistent r' /\ alive t (held r) = held r').
Proof.
  revert r n. induction evs as [ | ev evs IH ]; intros r n.
  - exists r, []. cbn. rewrite Nat.add_0_r. split; [ reflexivity | ].
    intros Hc. split; [ exact Hc | reflexivity ].
  - destruct (handler_step ev r n) as (r1 & t1 & H1 & Hc1).
    destruct (IH r1 (n + count is_fork t1)) as (r2 & t2 & H2 & Hc2).
    exists r2, (t1 ++ t2). cbn [deliver]. unfold mbind, M_bind, bind.
    rewrite H1, H2, count_app, Nat.add_assoc. split; [ reflexivity | ].
    intros Hc. destruct (Hc1 Hc) as [Hc1' Ha1].
    destruct (Hc2 Hc1') as [Hc2' Ha2].
    split; [ exact Hc2' | ]. rewrite alive_app, Ha1. exact Ha2.
Qed.


(** X2. From a fresh instance, after any sequence of events: the running
    flag is set exactly when a handle is held, the children forked and
    not yet killed are exactly the held one (so at most one child is
    alive), and the host has forked as many children as the trace shows. *)
Theorem children_accounted (entry : option string) (evs : list hook) :
  exists m t,
    run evs {| this := constructor entry; forked := 0 |} = Ok (tt, m, t)
    /\ alive t [] = held (this m)
    /\ List.length (alive t []) <= 1
    /\ _running (this m) = bool_decide (is_Some (_instance (this m)))
    /\ forked m = count is_fork t.
Proof.
  destruct (deliver_step evs (constructor entry) 0) as (r' & t & H & Hc).
  destruct Hc as [Hc Ha]; [ reflexivity | ].
  eexists _, t. split; [ exact H | ]. cbn [this forked].
  change (held (constructor entry)) with (@nil child) in Ha.
  rewrite Ha. repeat split; try assumption.
  unfold held. destruct (_instance r'); cbn; lia.
Qed.

(** [compile] then [done] on a running instance: the child is replaced. *)
Lemma rebuild_once (r : runner) (n : nat) (h : child) :
  truthy (_entry r) = true -> _running r = true -> _instance r = Some h ->
  run [Compile; Done] {| this := r; forked := n |}
  = Ok (tt, {| this := started n r; forked := S n |},
        [Log "grey" (tagged "Stopping bundle process"); Kill h;
         Fork (_entryPath r) n; Log "white" "";
         Log "green" (tagged "Starting bundle process")]).
Proof.
  intros He Hr Hi. cbn [deliver handler]. unfold mbind, M_bind, bind.
  rewrite (compile_stops r n h He Hr Hi).
  rewrite (done_starts (stopped r) n) by (try exact He; reflexivity).
  reflexivity.
Qed.

Lemma rebuilds_run (k : nat) (r : runner) (n : nat) (h : child) :
  truthy (_entry r) = true -> _running r = true -> _instance r = Some h ->
  exists t,
    run (rebuilds (S k)) {| this := r; forked := n |}
    = Ok (tt, {| this := started (n + k) r; forked := S (n + k) |}, t)
    /\ count is_kill t = S k /\ count is_fork t = S k
    /\ count is_log t = 3 * S k /\ count is_callback t = 0
    /\ Forall (forked_from (_entryPath r)) t
    /\ alive t [h] = [n + k].
Proof.
  revert r n h. induction k as [ | k IH ]; intros r n h He Hr Hi.
  - eexists. change (rebuilds 1) with [Compile; Done].
    rewrite (rebuild_once r n h He Hr Hi), Nat.add_0_r.
    split; [ reflexivity | ]. repeat split; try reflexivity.
    + repeat constructor.
    + cbn. rewrite Nat.eqb_refl. reflexivity.
  - destruct (IH (started n r) (S n) n He eq_refl eq_refl)
      as (t & H & Hk & Hf & Hl & Hc & Hp & Ha).
    eexists.
    change (rebuilds (S (S k))) with ([Compile; Done] ++ rebuilds (S k)).
    assert (Happ : forall a b m, run (a ++ b) m
                                 = (run a;; run b) m).
    { clear. intros a b m. revert m. induction a as [ | ev a IHa ]; intros m.
      - cbn. unfold mbind, M_bind, bind. cbn.
        destruct (deliver path_resolve rev b m) as [ [ [ [] m' ] t ] | ];
          reflexivity.
      - cbn [app deliver]. unfold mbind, M_bind, bind in *.
        destruct (handler path_resolve rev ev m) as [ [ [ [] m1 ] t1 ] | ];
          [ | reflexivity ].
        rewrite IHa.
        destruct (deliver path_resolve rev a m1) as [ [ [ [] m2 ] t2 ] | ];
          [ | reflexivity ].
        destruct (deliver path_resolve rev b m2) as [ [ [ [] m3 ] t3 ] | ];
          [ | reflexivity ].
        rewrite app_assoc. reflexivity. }
    rewrite Happ. unfold mbind, M_bind, bind.
    rewrite (rebuild_once r n h He Hr Hi), H.
    replace (n + S k) with (S n + k) by lia.
    split; [ reflexivity | ].
    rewrite !count_app, Hk, Hf, Hl, Hc, alive_app.
    repeat split; try (cbn; lia).
    + apply Forall_app. split; [ repeat constructor | exact Hp ].
    + cbn [alive]. cbn. rewrite Nat.eqb_refl. exact Ha.
Qed.

(** X3. Each rebuild of a running instance replaces the child: over [k]
    rebuilds the runner kills [k] children and forks [k], every one from
    the stored entry path, logs three lines per rebuild, calls no
    callback, and ends running with the last child forked, the entry and
    its path unchanged. *)
Theorem rebuilds_replace_the_child (k : nat) (r : runner) (n : nat)
  (h : child) :
  truthy (_entry r) = true -> _running r = true -> _instance r = Some h ->
  exists t,
    run (rebuilds (S k)) {| this := r; forked := n |}
    = Ok (tt, {| this := started (n + k) r; forked := S (n + k) |}, t)
    /\ count is_kill t = S k /\ count is_fork t = S k
    /\ count is_log t = 3 * S k /\ count is_callback t = 0
    /\ Forall (forked_from (_entryPath r)) t
    /\ alive t [h] = [n + k].
Proof. apply rebuilds_run. Qed.

(** X4. Once the first [after-emit] has run, the selection is frozen:
    whatever events follow, [_entry], [_entryPath] and the flag keep their
    values, and every child forked afterwards is forked from that
    [_entryPath]. *)
Theorem resolution_is_frozen (evs : list hook) (r : runner) (n : nat) :
  _setup r = true ->
  exists r' n' t,
    run evs {| this := r; forked := n |}
    = Ok (tt, {| this := r'; forked := n' |}, t)
    /\ _setup r' = true /\ _entry r' = _entry r
    /\ _entryPath r' = _entryPath r
    /\ Forall (forked_from (_entryPath r)) t.
Proof.
  revert r n. induction evs as [ | ev evs IH ]; intros r n Hs.
  - exists r, n, []. repeat split; auto.
  - assert (Hstep : exists r1 n1 t1,
               on ev {| this := r; forked := n |}
               = Ok (tt, {| this := r1; forked := n1 |}, t1)
               /\ _setup r1 = true /\ _entry r1 = _entry r
               /\ _entryPath r1 = _entryPath r
               /\ Forall (forked_from (_entryPath r)) t1).
    { destruct ev as [ c | | ]; cbn [handler].
      - exists r, n, [Callback]. rewrite (after_emit_later _ _ c r n Hs).
        repeat split; auto. repeat constructor.
      - destruct (compile_cases r n) as [(h & _ & _ & _ & H) | (_ & H)];
          rewrite H; eexists _, _, _; (split; [ reflexivity | ]);
          repeat split; auto; repeat constructor.
      - destruct (done_cases r n) as [(_ & _ & H) | (_ & H)];
          rewrite H; eexists _, _, _; (split; [ reflexivity | ]);
          repeat split; auto; repeat constructor. }
    destruct Hstep as (r1 & n1 & t1 & H1 & Hs1 & He1 & Hp1 & Hf1).
    destruct (IH r1 n1 Hs1) as (r2 & n2 & t2 & H2 & Hs2 & He2 & Hp2 & Hf2).
    exists r2, n2, (t1 ++ t2). cbn [deliver]. unfold mbind, M_bind, bind.
    rewrite H1, H2. split; [ reflexivity | ].
    rewrite He2, Hp2, He1, Hp1. repeat split; auto.
    apply Forall_app. split; [ exact Hf1 | ]. rewrite <- Hp1. exact Hf2.
Qed.

End RunnerMore.

Section RunnerEdges.

Variable path_resolve : string -> string.
Variable rev : revision.

Local Abbreviation run := (deliver path_resolve rev).
Local Abbreviation on := (handler path_resolve rev).

Lemma keeps_not_hot_update (c : compilation) (a : string) :
  keeps rev c a = true -> includes a "hot-update" = false.
Proof.
  unfold keeps, hot_update_fragment. destruct rev.
  - apply negb_true_iff.
  - intros H. apply andb_true_iff in H. destruct H as [H _].
    apply negb_true_iff. exact H.
Qed.

(** The name the first [after-emit] leaves in [_entry]. *)
Lemma after_emit_entry (c : compilation) (r r' : runner) (n n' : nat)
  (t : list effect) :
  _setup r = false ->
  on (AfterEmit c) {| this := r; forked := n |}
  = Ok (tt, {| this := r'; forked := n' |}, t) ->
  _entry r'
  = fst (selection (_entry r)
           (List.filter (keeps rev c) (Object_keys (assets c)))).
Proof.
  intros Hs H. cbn [handler] in H.
  rewrite (after_emit_first path_resolve rev c r n Hs) in H. cbv zeta in H.
  injection H as Hr _ _. subst r'.
  match goal with
  | |- context [located ?pr ?c ?r1] =>
      destruct (located_fields pr c r1) as (He & _)
  end.
  rewrite He. reflexivity.
Qed.

(** X5. In both revisions the entry selected by the first [after-emit] is
    a key of [compilation.assets] whose name has no hot-update fragment;
    so a pre-set name that has one is never kept, even when an asset of
    that name was emitted. *)
Theorem selected_entry_is_an_asset (c : compilation) (r r' : runner)
  (n n' : nat) (t : list effect) :
  _setup r = false ->
  on (AfterEmit c) {| this := r; forked := n |}
  = Ok (tt, {| this := r'; forked := n' |}, t) ->
  (truthy (_entry r') = true ->
   In (template (_entry r')) (Object_keys (assets c))
   /\ ~ mentions "hot-update" (template (_entry r')))
  /\ (truthy (_entry r) = true ->
      mentions "hot-update" (template (_entry r)) ->
      _entry r' = None).
Proof.
  intros Hs H. pose proof (after_emit_entry c r r' n n' t Hs H) as He.
  assert (Hsel : truthy (_entry r') = true ->
                 In (template (_entry r')) (Object_keys (assets c))
                 /\ ~ mentions "hot-update" (template (_entry r'))).
  { rewrite He. intros Ht. apply selection_In in Ht.
    apply filter_In in Ht. destruct Ht as [Hin Hk]. split; [ exact Hin | ].
    intros Hm. apply includes_spec in Hm; [ | discriminate ].
    rewrite (keeps_not_hot_update c _ Hk) in Hm. discriminate. }
  split; [ exact Hsel | ].
  intros Ht Hm. rewrite He in *. unfold selection in *. rewrite Ht in *.
  cbn [negb andb] in *.
  destruct (absent _ (template (_entry r))) eqn:Ha; [ reflexivity | ].
  cbn [fst] in *. exfalso. apply (Hsel Ht). exact Hm.
Qed.

(** X6. A child started by a [done] that comes before the first
    [after-emit] is never killed when the pre-set name then fails to
    resolve: the entry is cleared while the handle stays held, so every
    later [compile] is a no-op.  The run forks exactly that one child,
    with a null path, and kills nothing. *)
Theorem early_child_is_never_killed (name : string) (c : compilation)
  (evs : list hook) :
  name <> "" ->
  absent (List.filter (keeps rev c) (Object_keys (assets c))) name = true ->
  exists m t,
    run (Done :: AfterEmit c :: evs)
      {| this := constructor (Some name); forked := 0 |}
    = Ok (tt, m, t)
    /\ In (Fork None 0) t
    /\ count is_fork t = 1 /\ count is_kill t = 0
    /\ _entry (this m) = None
    /\ _running (this m) = true /\ _instance (this m) = Some 0.
Proof.
  intros Hname Habs.
  assert (Ht : truthy (Some name) = true).
  { cbn. destruct name; [ congruence | reflexivity ]. }
  set (r0 := constructor (Some name)).
  assert (He0 : _entry r0 = Some name).
  { subst r0. unfold constructor. rewrite Ht. reflexivity. }
  set (r1 := started 0 r0).
  assert (H1 : on Done {| this := r0; forked := 0 |}
               = Ok (tt, {| this := r1; forked := 1 |},
                     [Fork None 0; Log "white" "";
                      Log "green" (tagged "Starting bundle process")])).
  { cbn [handler]. rewrite done_starts; [ reflexivity | | reflexivity ].
    rewrite He0. exact Ht. }
  pose proof (after_emit_first path_resolve rev c r1 1 eq_refl) as H2.
  cbv zeta in H2.
  assert (He1 : _entry r1 = Some name) by exact He0.
  rewrite He1 in H2. unfold selection in H2. cbn [template] in H2.
  rewrite Ht, Habs in H2. cbn [andb fst snd] in H2.
  unfold located in H2. cbn [_entry set_entry truthy fst snd] in H2.
  set (r2 := set_entry None (set_setup true r1)) in *.
  destruct (inert_deliver path_resolve rev evs r2 1 eq_refl eq_refl)
    as (t3 & H3 & Hc3).
  destruct (only_callbacks t3 Hc3) as (Hf3 & Hk3 & _).
  eexists _, _. cbn [deliver]. unfold mbind, M_bind, bind.
  rewrite H1. cbn [handler]. rewrite H2, H3. split; [ reflexivity | ].
  split; [ left; reflexivity | ].
  rewrite !count_app, Hf3, Hk3. repeat split; reflexivity.
Qed.

(** X7. With no candidate (no asset, or only filtered ones) the first
    [after-emit] selects nothing: a pre-set name is reported missing with
    an empty list of available entries, and without a pre-set name the
    handler still logs the line of the found case, for the entry [null]. *)
Theorem no_candidate_no_entry (c : compilation) (entry : option string)
  (n : nat) :
  List.filter (keeps rev c) (Object_keys (assets c)) = [] ->
  on (AfterEmit c) {| this := constructor entry; forked := n |}
  = Ok (tt, {| this := set_setup true (constructor None); forked := n |},
        Log "white" ""
        :: (if truthy entry
            then [Log "red" (tagged ("The required entry (" +:+ template entry
                                     +:+ ") doesn't exist"));
                  Log "grey" (tagged "These are the available entries: ")]
            else [Log "green" (tagged "Using the following entry: null")])
        ++ [Callback]).
Proof.
  intros Hnil. cbn [handler].
  rewrite (after_emit_first path_resolve rev c (constructor entry) n eq_refl).
  cbv zeta. rewrite Hnil. unfold constructor, selection, located.
  cbn [_entry]. destruct (truthy entry) eqn:Ht.
  - rewrite Ht. reflexivity.
  - reflexivity.
Qed.

(** Decide [well_formed] for the effects of a literal list. *)
Ltac well_formed_list :=
  repeat (apply List.Forall_cons;
          [ first [ exact I
                  | split; [ cbn; tauto
                           | first [ left; reflexivity
                                   | right; eexists; reflexivity ] ] ] | ]);
  apply List.Forall_nil.

Lemma well_formed_selection (e : option string) (entries : list string) :
  Forall well_formed (snd (selection e entries)).
Proof.
  unfold selection.
  repeat match goal with |- context [if ?b then _ else _] => destruct b end;
    cbn [snd]; well_formed_list.
Qed.

Lemma well_formed_located (c : compilation) (r : runner) :
  Forall well_formed (snd (located path_resolve c r)).
Proof.
  unfold located. destruct (truthy (_entry r)); [ | constructor ].
  destruct (get (assets c) (template (_entry r))); [ | constructor ].
  cbn [snd]. well_formed_list.
Qed.

(** X8. Every line the runner logs, in any run from any state, is either
    blank or starts with the tag [[WebpackNodeUtilsRunner] ], and is
    printed in white, grey, red, yellow or green. *)
Theorem logs_are_tagged (evs : list hook) (m : machine) :
  exists m' t, run evs m = Ok (tt, m', t) /\ Forall well_formed t.
Proof.
  revert m. induction evs as [ | ev evs IH ]; intros m.
  - exists m, []. split; [ reflexivity | constructor ].
  - assert (Hstep : exists m1 t1,
               on ev m = Ok (tt, m1, t1) /\ Forall well_formed t1).
    { destruct m as [r n]. destruct ev as [ c | | ]; cbn [handler].
      - destruct (_setup r) eqn:Hs.
        + rewrite (after_emit_later _ _ c r n Hs). eexists _, _.
          split; [ reflexivity | well_formed_list ].
        + rewrite (after_emit_first path_resolve rev c r n Hs). cbv zeta.
          eexists _, _. split; [ reflexivity | ].
          apply List.Forall_cons; [ split; [ cbn; tauto | left; reflexivity ] | ].
          apply Forall_app. split; [ apply well_formed_selection | ].
          apply Forall_app. split; [ apply well_formed_located | ].
          well_formed_list.
      - destruct (compile_cases r n) as [(h & _ & _ & _ & H) | (_ & H)];
          rewrite H; eexists _, _; (split; [ reflexivity | ]);
          well_formed_list.
      - destruct (done_cases r n) as [(_ & _ & H) | (_ & H)];
          rewrite H; eexists _, _; (split; [ reflexivity | ]);
          well_formed_list. }
    destruct Hstep as (m1 & t1 & H1 & Hw1).
    destruct (IH m1) as (m2 & t2 & H2 & Hw2).
    exists m2, (t1 ++ t2). cbn [deliver]. unfold mbind, M_bind, bind.
    rewrite H1, H2. split; [ reflexivity | ].
    apply Forall_app. split; assumption.
Qed.

(** X15. A runner built without an entry name does nothing before the
    first [after-emit]: any sequence of [compile] and [done] events leaves
    the instance as the constructor made it and has no effect at all. *)
Theorem idle_until_resolved (evs : list hook) (n : nat) :
  forallb is_build_event evs = true ->
  run evs {| this := constructor None; forked := n |}
  = Ok (tt, {| this := constructor None; forked := n |}, []).
Proof.
  induction evs as [ | ev evs IH ]; [ reflexivity | ].
  cbn [forallb]. intros H. apply andb_true_iff in H. destruct H as [Hev Hevs].
  cbn [deliver]. unfold mbind, M_bind, bind.
  destruct ev as [ c | | ]; [ discriminate | | ]; cbn [handler].
  - rewrite compile_idle by (left; reflexivity). rewrite (IH Hevs). reflexivity.
  - rewrite done_idle by (left; reflexivity). rewrite (IH Hevs). reflexivity.
Qed.

(** X16. A whole watch session with a pre-set name that is a candidate:
    the first [after-emit], the first [done] and then [k] rebuilds log
    [5 + 3k] lines, call the callback once, fork [k + 1] children, all
    from the resolved path of the named asset, kill [k] of them and leave
    exactly the last one alive. *)
Theorem watch_session (name : string) (c : compilation) (k : nat) :
  name <> "" ->
  absent (List.filter (keeps rev c) (Object_keys (assets c))) name = false ->
  exists m t x,
    run (AfterEmit c :: Done :: rebuilds k)
      {| this := constructor (Some name); forked := 0 |}
    = Ok (tt, m, t)
    /\ count is_log t = 5 + 3 * k /\ count is_callback t = 1
    /\ count is_fork t = S k /\ count is_kill t = k
    /\ alive t [] = [k] /\ _instance (this m) = Some k
    /\ get (assets c) name = Some x
    /\ Forall (forked_from (Some (path_resolve (existsAt x)))) t.
Proof.
  intros Hname Habs.
  assert (Ht : truthy (Some name) = true).
  { cbn. destruct name; [ congruence | reflexivity ]. }
  set (r0 := constructor (Some name)).
  assert (He0 : _entry r0 = Some name).
  { subst r0. unfold constructor. rewrite Ht. reflexivity. }
  destruct (filter_keys_get path_resolve rev c name
              (absent_false_In _ _ Habs)) as [x Hx].
  pose proof (after_emit_first path_resolve rev c r0 0 eq_refl) as H1.
  cbv zeta in H1. rewrite He0 in H1. unfold selection in H1.
  cbn [template] in H1. rewrite Ht, Habs in H1. cbn [negb andb fst snd] in H1.
  unfold located in H1. cbn [_entry set_entry] in H1.
  rewrite Ht in H1. cbn [template] in H1. rewrite Hx in H1. cbn [fst snd] in H1.
  set (r1 := set_entryPath _ (set_entry (Some name) (set_setup true r0))) in H1.
  assert (H2 : on Done {| this := r1; forked := 0 |}
               = Ok (tt, {| this := started 0 r1; forked := 1 |},
                     [Fork (Some (path_resolve (existsAt x))) 0;
                      Log "white" "";
                      Log "green" (tagged "Starting bundle process")])).
  { cbn [handler]. rewrite done_starts; [ reflexivity | exact Ht | reflexivity ]. }
  destruct k as [ | k ].
  - eexists _, _, x. cbn [rebuilds deliver]. unfold mbind, M_bind, bind.
    cbn [handler] in *. rewrite H1, H2. cbn [mret M_ret ret].
    split; [ reflexivity | ].
    repeat split; try reflexivity; try exact Hx.
    repeat constructor.
  - destruct (rebuilds_run path_resolve rev k (started 0 r1) 1 0 Ht eq_refl eq_refl)
      as (t3 & H3 & Hk & Hf & Hl & Hc & Hp & Ha).
    eexists _, _, x. cbn [deliver]. unfold mbind, M_bind, bind.
    cbn [handler] in *. rewrite H1, H2.
    change (deliver path_resolve rev (Compile :: Done :: rebuilds k))
      with (deliver path_resolve rev (rebuilds (S k))).
    rewrite H3. split; [ reflexivity | ].
    cbn [this _instance started set_running set_instance].
    rewrite !count_app, Hk, Hf, Hl, Hc, !alive_app.
    repeat split; try (cbn; lia); try exact Hx.
    + cbn [alive app]. exact Ha.
    + apply Forall_app. split; [ repeat constructor | ].
      apply Forall_app. split; [ repeat constructor | exact Hp ].
Qed.

End RunnerEdges.

(** * [apply] and the two revisions of the filter *)


Lemma filter_andb {A} (p q : A -> bool) (l : list A) :
  List.filter (fun a => p a && q a) l = List.filter q (List.filter p l).
Proof.
  induction l as [ | a l IH ]; [ reflexivity | ].
  cbn. destruct (p a); cbn; [ | exact IH ].
  destruct (q a); rewrite IH; reflexivity.
Qed.

Lemma filter_all {A} (p : A -> bool) (l : list A) :
  (forall a, In a l -> p a = true) -> List.filter p l = l.
Proof.
  induction l as [ | a l IH ]; intros H; [ reflexivity | ].
  cbn. rewrite (H a) by (left; reflexivity).
  rewrite IH by (intros b Hb; apply H; right; exact Hb). reflexivity.
Qed.

(** X10. The newer filter only removes candidates: what the revision that
    checks [existsAt] keeps is what the older revision keeps, in the same
    order, less the names whose asset is not a finished script; the two
    revisions have the same candidates when every name they keep has an
    [existsAt] ending in [.js]. *)
Theorem script_filter_refines_hot_update_filter (c : compilation) :
  exists older newer,
    entries_of HotUpdateFilter c = Ok older
    /\ entries_of ScriptFilter c = Ok newer
    /\ newer = List.filter (finished_script c) older
    /\ (forall a, In a newer -> In a older)
    /\ ((forall a, In a older -> finished_script c a = true) ->
        newer = older).
Proof.
  exists (List.filter (keeps HotUpdateFilter c) (Object_keys (assets c))),
         (List.filter (keeps ScriptFilter c) (Object_keys (assets c))).
  split; [ apply entries_of_filter | ]. split; [ apply entries_of_filter | ].
  assert (Heq : List.filter (keeps ScriptFilter c) (Object_keys (assets c))
                = List.filter (finished_script c)
                    (List.filter (keeps HotUpdateFilter c)
                       (Object_keys (assets c)))).
  { unfold keeps. apply filter_andb. }
  split; [ exact Heq | ]. split.
  - intros a. rewrite Heq. intros H. apply filter_In in H. tauto.
  - intros H. rewrite Heq. apply filter_all. exact H.
Qed.

(** * Further properties of [externals] *)

Lemma absent_Permutation (l l' : list string) (x : string) :
  l ≡ₚ l' -> absent l x = absent l' x.
Proof.
  intros Hp. destruct (absent l x) eqn:H1, (absent l' x) eqn:H2;
    try reflexivity.
  - apply absent_spec in H1. apply absent_false_In in H2.
    exfalso. apply H1. apply list_elem_of_In. rewrite Hp.
    apply list_elem_of_In. exact H2.
  - apply absent_spec in H2. apply absent_false_In in H1.
    exfalso. apply H2. apply list_elem_of_In. rewrite <- Hp.
    apply list_elem_of_In. exact H1.
Qed.

Lemma absent_app (l1 l2 : list string) (x : string) :
  absent (l1 ++ l2) x = absent l1 x && absent l2 x.
Proof. unfold absent. rewrite existsb_app. apply negb_orb. Qed.

Section ExternalsFacts.

Variable rootPath : string.
Variable path_join : string -> string -> string.

(** [externals] once the manifest is read, key by key. *)
Lemma externals_lookup (node_require_json : string -> option manifest)
  (packageJSON : manifest)
  (extras : option (list (string * string))) (addDev : option bool)
  (defaults ignore : option (list string)) :
  node_require_json (path_join rootPath "package.json") = Some packageJSON ->
  exists result : gmap string string,
    externals rootPath path_join node_require_json
      extras addDev defaults ignore = Ok result
    /\ forall name,
         result !! name
         = binding (default [] extras)
             (union_of packageJSON (default false addDev)
                (default ["webpack-node-utils"; "colors/safe"] defaults))
             (default ["normalize.css"; "font-awesome";
                       "react-tap-event-plugin"] ignore)
             name.
Proof.
  intros Hreq. unfold externals, require_json. rewrite Hreq.
  eexists. split; [ reflexivity | ].
  intros name. unfold binding, union_of, truthy_b.
  destruct extras as [ex | ].
  - change (default [] (Some ex)) with ex.
    rewrite extras_lookup, packages_lookup, lookup_empty.
    destruct (absent (Object_keys ex) name) eqn:Habs.
    + apply absent_keys_get in Habs. rewrite Habs. reflexivity.
    + destruct (get ex name) as [path | ] eqn:Hget; [ reflexivity | ].
      apply absent_keys_get in Hget. congruence.
  - change (default [] None) with (@nil (string * string)).
    rewrite packages_lookup, lookup_empty. reflexivity.
Qed.

(** X11. Asking for the development dependencies only adds bindings: every
    name bound without them is bound to the same string with them, and
    every development dependency that is not ignored is bound. *)
Theorem addDev_only_adds (node_require_json : string -> option manifest)
  (packageJSON : manifest) (extras : option (list (string * string)))
  (defaults ignore : option (list string))
  (without with_dev : gmap string string) :
  node_require_json (path_join rootPath "package.json") = Some packageJSON ->
  externals rootPath path_join node_require_json
    extras None defaults ignore = Ok without ->
  externals rootPath path_join node_require_json
    extras (Some true) defaults ignore = Ok with_dev ->
  without ⊆ with_dev
  /\ forall name,
       In name (Object_keys (devDependencies packageJSON)) ->
       absent (default ["normalize.css"; "font-awesome";
                        "react-tap-event-plugin"] ignore) name = true ->
       is_Some (with_dev !! name).
Proof.
  intros Hreq H1 H2.
  destruct (externals_lookup node_require_json packageJSON extras None
              defaults ignore Hreq) as (r1 & Hr1 & Hl1).
  destruct (externals_lookup node_require_json packageJSON extras (Some true)
              defaults ignore Hreq) as (r2 & Hr2 & Hl2).
  rewrite H1 in Hr1. injection Hr1 as <-.
  rewrite H2 in Hr2. injection Hr2 as <-.
  split.
  - apply map_subseteq_spec. intros name v. rewrite Hl1, Hl2.
    unfold binding, union_of. cbn [default from_option id].
    destruct (get (default [] extras) name); [ tauto | ].
    rewrite !absent_app. change (absent [] name) with true.
    destruct (absent (default _ defaults) name),
      (absent (Object_keys (dependencies packageJSON)) name),
      (absent (Object_keys (devDependencies packageJSON)) name),
      (absent (default _ ignore) name);
      cbn [negb andb]; intros H; solve [ exact H | discriminate ].
  - intros name Hin Hig. rewrite Hl2. unfold binding, union_of.
    cbn [default from_option id].
    destruct (get (default [] extras) name); [ eauto | ].
    rewrite Hig, andb_true_r.
    assert (Hp : absent
                   (default ["webpack-node-utils"; "colors/safe"] defaults
                    ++ Object_keys (dependencies packageJSON)
                    ++ Object_keys (devDependencies packageJSON)) name
                 = false).
    { apply not_true_iff_false. intros Habs. apply absent_spec in Habs.
      apply Habs. apply in_or_app. right. apply in_or_app. right. exact Hin. }
    rewrite Hp. eauto.
Qed.

(** X12. The order in which the manifest, the defaults and the ignore list
    give their names does not matter: two calls whose lists are
    permutations of one another return the same mapping. *)
Theorem externals_ignores_order (json json' : string -> option manifest)
  (packageJSON packageJSON' : manifest)
  (extras : option (list (string * string))) (addDev : option bool)
  (defaults defaults' ignore ignore' : list string) :
  json (path_join rootPath "package.json") = Some packageJSON ->
  json' (path_join rootPath "package.json") = Some packageJSON' ->
  Object_keys (dependencies packageJSON)
  ≡ₚ Object_keys (dependencies packageJSON') ->
  Object_keys (devDependencies packageJSON)
  ≡ₚ Object_keys (devDependencies packageJSON') ->
  defaults ≡ₚ defaults' ->
  ignore ≡ₚ ignore' ->
  externals rootPath path_join json extras addDev
    (Some defaults) (Some ignore)
  = externals rootPath path_join json' extras addDev
      (Some defaults') (Some ignore').
Proof.
  intros Hj Hj' Hdeps Hdev Hdef Hig.
  destruct (externals_lookup json packageJSON extras addDev
              (Some defaults) (Some ignore) Hj) as (r & Hr & Hl).
  destruct (externals_lookup json' packageJSON' extras addDev
              (Some defaults') (Some ignore') Hj') as (r' & Hr' & Hl').
  rewrite Hr, Hr'. f_equal. apply map_eq. intros name.
  rewrite Hl, Hl'. unfold binding. cbn [default from_option id].
  rewrite (absent_Permutation ignore ignore' name Hig).
  rewrite (absent_Permutation
             (union_of packageJSON (default false addDev) defaults)
             (union_of packageJSON' (default false addDev) defaults')).
  - reflexivity.
  - unfold union_of. rewrite Hdef, Hdeps.
    destruct (default false addDev); [ rewrite Hdev | ]; reflexivity.
Qed.

End ExternalsFacts.

(** * Further properties of the loader *)

Section LoaderMore.

Variable rootPath : string.
Variable path_join : string -> string -> string.
Variable node_require : string -> option module.
Variable merge : value -> value -> value.

Local Abbreviation loadConfig :=
  (_loadConfig rootPath path_join node_require merge).

(** [_loadConfig], one level unfolded. *)
Lemma loadConfig_unfold (fuel : nat) (directory name : string)
  (params : value) (fn : option string) :
  loadConfig (S fuel) directory name params fn
  = match require rootPath path_join node_require
            (path_join directory (name +:+ ".js")) with
    | Throw e => Some (Throw e)
    | Ok configModule =>
        match (if truthy fn
               then call_named configModule (template fn) params
               else call configModule params) with
        | Throw e => Some (Throw e)
        | Ok config =>
            match get_property config "extends" with
            | Throw e => Some (Throw e)
            | Ok ext =>
                if truthy_v ext then
                  match loadConfig fuel directory (to_string ext) params None
                  with
                  | None => None
                  | Some (Throw e) => Some (Throw e)
                  | Some (Ok baseConfig) =>
                      Some (Ok (merge baseConfig
                                  (delete_property config "extends")))
                  end
                else Some (Ok config)
            end
        end
    end.
Proof. reflexivity. Qed.

Lemma loadConfig_S_fuel (fuel : nat) :
  forall (directory name : string) (params : value) (fn : option string)
         (r : result value),
    loadConfig fuel directory name params fn = Some r ->
    loadConfig (S fuel) directory name params fn = Some r.
Proof.
  induction fuel as [ | fuel IH ]; intros directory name params fn r H;
    [ discriminate | ].
  rewrite loadConfig_unfold in H. rewrite loadConfig_unfold.
  destruct (require rootPath path_join node_require _) as [m | e];
    [ | exact H ].
  destruct (if truthy fn then _ else _) as [cfg | e]; [ | exact H ].
  destruct (get_property cfg "extends") as [ext | e]; [ | exact H ].
  destruct (truthy_v ext); [ | exact H ].
  destruct (loadConfig fuel directory (to_string ext) params None)
    as [rp | ] eqn:Hp; [ | discriminate ].
  rewrite (IH _ _ _ _ _ Hp). exact H.
Qed.

(** The depth allowed to the recursion does not change what a call
    returns: once [_loadConfig] returns with some fuel, it returns the same
    result, value or exception, with any larger fuel. *)
Theorem loadConfig_result_is_stable (fuel fuel' : nat)
  (directory name : string) (params : value) (fn : option string)
  (r : result value) :
  fuel <= fuel' ->
  loadConfig fuel directory name params fn = Some r ->
  loadConfig fuel' directory name params fn = Some r.
Proof.
  intros Hle H. induction Hle as [ | fuel' Hle IH ]; [ exact H | ].
  apply loadConfig_S_fuel. exact IH.
Qed.

(** X13. How a load fails: a file that cannot be required throws
    ModuleNotFound for the path joined from the root, the directory and
    [name.js]; a selector that names no export, a file whose exports are
    not callable, and a configuration function returning [null] throw a
    TypeError; and when the parent named by [extends] cannot be required,
    the whole call throws the parent's ModuleNotFound. *)
Theorem loadConfig_failures (fuel : nat) (directory name : string)
  (params : value) (fn : option string) :
  let path := path_join rootPath (path_join directory (name +:+ ".js")) in
  (node_require path = None ->
   loadConfig (S fuel) directory name params fn
   = Some (Throw (ModuleNotFound path)))
  /\ (forall m,
        node_require path = Some m ->
        (if truthy fn then exports_get m (template fn) else exports_call m)
        = None ->
        exists msg,
          loadConfig (S fuel) directory name params fn
          = Some (Throw (TypeError msg)))
  /\ (forall m f,
        node_require path = Some m ->
        (if truthy fn then exports_get m (template fn) else exports_call m)
        = Some f ->
        f params = Ok VNull ->
        exists msg,
          loadConfig (S fuel) directory name params fn
          = Some (Throw (TypeError msg)))
  /\ (forall m f o parent,
        node_require path = Some m ->
        (if truthy fn then exports_get m (template fn) else exports_call m)
        = Some f ->
        f params = Ok (VObj o) ->
        o !! "extends" = Some parent ->
        truthy_v parent = true ->
        node_require
          (path_join rootPath
             (path_join directory (to_string parent +:+ ".js"))) = None ->
        loadConfig (S (S fuel)) directory name params fn
        = Some (Throw (ModuleNotFound
                         (path_join rootPath
                            (path_join directory
                               (to_string parent +:+ ".js")))))).
Proof.
  intros path. subst path. split; [ | split; [ | split ] ].
  - intros Hm. cbn [_loadConfig]. unfold require. rewrite Hm. reflexivity.
  - intros m Hm Hf. cbn [_loadConfig]. unfold require, call, call_named.
    rewrite Hm. destruct (truthy fn); rewrite Hf; eexists; reflexivity.
  - intros m f Hm Hf Hc. cbn [_loadConfig]. unfold require, call, call_named.
    rewrite Hm. destruct (truthy fn); rewrite Hf, Hc; eexists; reflexivity.
  - intros m f o parent Hm Hf Hc Hext Ht Hp.
    rewrite (loadConfig_extends rootPath path_join node_require merge
               (S fuel) directory name params fn m f o parent Hm Hf Hc Hext Ht).
    cbn [_loadConfig]. unfold require. rewrite Hp. reflexivity.
Qed.

(** X14. Inheritance composes from the root down: for a configuration that
    extends a parent that extends a configuration without [extends], the
    result is the grandparent merged with the parent, merged with the
    child, each without its [extends]; the parent and the grandparent are
    called through their default export with the child's parameters. *)
Theorem inheritance_composes (fuel : nat) (directory name : string)
  (params : value) (fn : option string)
  (m mp mg : module) (f fp fg : jsfun)
  (o op : gmap string value) (parent grand root : value) :
  node_require (path_join rootPath (path_join directory (name +:+ ".js")))
  = Some m ->
  (if truthy fn then exports_get m (template fn) else exports_call m)
  = Some f ->
  f params = Ok (VObj o) ->
  o !! "extends" = Some parent -> truthy_v parent = true ->
  node_require
    (path_join rootPath (path_join directory (to_string parent +:+ ".js")))
  = Some mp ->
  exports_call mp = Some fp ->
  fp params = Ok (VObj op) ->
  op !! "extends" = Some grand -> truthy_v grand = true ->
  node_require
    (path_join rootPath (path_join directory (to_string grand +:+ ".js")))
  = Some mg ->
  exports_call mg = Some fg ->
  fg params = Ok root ->
  get_property root "extends" = Ok VUndefined ->
  loadConfig (S (S (S fuel))) directory name params fn
  = Some (Ok (merge (merge root (VObj (delete "extends" op)))
                (VObj (delete "extends" o)))).
Proof.
  intros Hm Hf Hc Hext Ht Hmp Hfp Hcp Hextp Htp Hmg Hfg Hcg Hroot.
  rewrite (loadConfig_extends rootPath path_join node_require merge
             (S (S fuel)) directory name params fn m f o parent
             Hm Hf Hc Hext Ht).
  rewrite (loadConfig_extends rootPath path_join node_require merge
             (S fuel) directory (to_string parent) params None mp fp op grand
             Hmp Hfp Hcp Hextp Htp).
  rewrite (loadConfig_plain rootPath path_join node_require merge
             fuel directory (to_string grand) params None mg fg root
             VUndefined Hmg Hfg Hcg Hroot eq_refl).
  reflexivity.
Qed.

End LoaderMore.

(** * The further statements on concrete inputs *)

Lemma rebuilds_replace_the_child_witness :
  exists t,
    deliver Sample.path_resolve ScriptFilter (rebuilds 3)
      {| this := Probe.running_app; forked := 1 |}
    = Ok (tt, {| this := started 3 Probe.running_app; forked := 4 |}, t)
    /\ count is_kill t = 3 /\ count is_fork t = 3
    /\ count is_log t = 9 /\ count is_callback t = 0
    /\ Forall (forked_from (Some "/project/./app.js")) t
    /\ alive t [0] = [3].
Proof.
  apply (rebuilds_replace_the_child Sample.path_resolve ScriptFilter 2
           Probe.running_app 1 0); reflexivity.
Defined.

Lemma resolution_is_frozen_witness :
  exists r' n' t,
    deliver Sample.path_resolve ScriptFilter
      [Done; AfterEmit Probe.compilation_hot; Compile; Done]
      {| this := Sample.resolved_app; forked := 0 |}
    = Ok (tt, {| this := r'; forked := n' |}, t)
    /\ _setup r' = true /\ _entry r' = Some "app"
    /\ _entryPath r' = Some "/project/./app.js"
    /\ Forall (forked_from (Some "/project/./app.js")) t.
Proof.
  apply (resolution_is_frozen Sample.path_resolve ScriptFilter
           [Done; AfterEmit Probe.compilation_hot; Compile; Done]
           Sample.resolved_app 0).
  reflexivity.
Defined.

Lemma selected_entry_is_an_asset_witness :
  In "app" (Object_keys (assets Probe.compilation_hot))
  /\ ~ mentions "hot-update" "app".
Proof.
  apply (proj1 (selected_entry_is_an_asset Sample.path_resolve ScriptFilter
                  Probe.compilation_hot (constructor None)
                  Sample.resolved_app 0 0
                  [Log "white" "";
                   Log "green" (tagged "Using the only available entry: app");
                   Log "green" (tagged "Entry file: /project/./app.js");
                   Callback]
                  eq_refl eq_refl)).
  reflexivity.
Defined.

Lemma early_child_is_never_killed_witness :
  exists m t,
    deliver Sample.path_resolve HotUpdateFilter
      [Done; AfterEmit Sample.compilation_two; Compile; Done; Compile]
      {| this := constructor (Some "random"); forked := 0 |}
    = Ok (tt, m, t)
    /\ In (Fork None 0) t
    /\ count is_fork t = 1 /\ count is_kill t = 0
    /\ _entry (this m) = None
    /\ _running (this m) = true /\ _instance (this m) = Some 0.
Proof.
  apply (early_child_is_never_killed Sample.path_resolve HotUpdateFilter
           "random" Sample.compilation_two [Compile; Done; Compile]).
  - discriminate.
  - reflexivity.
Defined.

Lemma no_candidate_no_entry_witness :
  handler Sample.path_resolve ScriptFilter
    (AfterEmit Probe.compilation_updates)
    {| this := constructor None; forked := 0 |}
  = Ok (tt, {| this := set_setup true (constructor None); forked := 0 |},
        Log "white" ""
        :: [Log "green" (tagged "Using the following entry: null")]
        ++ [Callback]).
Proof.
  apply (no_candidate_no_entry Sample.path_resolve ScriptFilter
           Probe.compilation_updates None 0).
  reflexivity.
Defined.


Lemma idle_until_resolved_witness :
  deliver Sample.path_resolve ScriptFilter [Done; Compile; Done]
    {| this := constructor None; forked := 0 |}
  = Ok (tt, {| this := constructor None; forked := 0 |}, []).
Proof.
  apply (idle_until_resolved Sample.path_resolve ScriptFilter
           [Done; Compile; Done] 0).
  reflexivity.
Defined.

Lemma watch_session_witness :
  exists m t x,
    deliver Sample.path_resolve ScriptFilter
      (AfterEmit Probe.compilation_hot :: Done :: rebuilds 3)
      {| this := constructor (Some "app"); forked := 0 |}
    = Ok (tt, m, t)
    /\ count is_log t = 14 /\ count is_callback t = 1
    /\ count is_fork t = 4 /\ count is_kill t = 3
    /\ alive t [] = [3] /\ _instance (this m) = Some 3
    /\ get (assets Probe.compilation_hot) "app" = Some x
    /\ Forall (forked_from (Some (Sample.path_resolve (existsAt x)))) t.
Proof.
  apply (watch_session Sample.path_resolve ScriptFilter "app"
           Probe.compilation_hot 3).
  - discriminate.
  - reflexivity.
Defined.

Lemma script_filter_refines_hot_update_filter_witness :
  entries_of ScriptFilter Sample.compilation_two
  = entries_of HotUpdateFilter Sample.compilation_two.
Proof.
  destruct (script_filter_refines_hot_update_filter Sample.compilation_two)
    as (older & newer & Ho & Hn & _ & _ & Heq).
  rewrite Ho, Hn. f_equal. apply Heq.
  vm_compute in Ho. injection Ho as <-.
  intros a [<- | [<- | []]]; reflexivity.
Defined.

Lemma addDev_only_adds_witness :
  Probe.bound
    (externals "/project" Sample.path_join
       (fun _ => Some Probe.manifest_readme) None None None None)
  ⊆ Probe.bound
      (externals "/project" Sample.path_join
         (fun _ => Some Probe.manifest_readme) None (Some true) None None).
Proof.
  destruct (externals_lookup "/project" Sample.path_join
              (fun _ => Some Probe.manifest_readme) Probe.manifest_readme
              None None None None eq_refl) as (r1 & H1 & _).
  destruct (externals_lookup "/project" Sample.path_join
              (fun _ => Some Probe.manifest_readme) Probe.manifest_readme
              None (Some true) None None eq_refl) as (r2 & H2 & _).
  rewrite H1, H2.
  apply (addDev_only_adds "/project" Sample.path_join
           (fun _ => Some Probe.manifest_readme) Probe.manifest_readme
           None None None r1 r2 eq_refl H1 H2).
Defined.

Lemma externals_ignores_order_witness :
  externals "/project" Sample.path_join
    (fun _ => Some Probe.manifest_readme) None (Some true)
    (Some ["colors/safe"; "webpack-node-utils"]) (Some ["node-fetch"])
  = externals "/project" Sample.path_join
      (fun _ => Some Probe.manifest_swapped) None (Some true)
      (Some ["webpack-node-utils"; "colors/safe"]) (Some ["node-fetch"]).
Proof.
  apply (externals_ignores_order "/project" Sample.path_join
           (fun _ => Some Probe.manifest_readme)
           (fun _ => Some Probe.manifest_swapped)
           Probe.manifest_readme Probe.manifest_swapped);
    try reflexivity; apply perm_swap.
Defined.

Lemma loadConfig_result_is_stable_witness :
  _loadConfig "/project" Sample.path_join Sample.node_require Sample.merge
    9 ".webpack" "base" (VObj ∅) None
  = Some (Ok (VObj Sample.base)).
Proof.
  apply (loadConfig_result_is_stable "/project" Sample.path_join
           Sample.node_require Sample.merge 1 9 ".webpack" "base" (VObj ∅)
           None (Ok (VObj Sample.base))).
  - lia.
  - reflexivity.
Defined.

Lemma loadConfig_failures_witness :
  _loadConfig "/project" Sample.path_join Probe.node_require Sample.merge
    1 ".webpack" "missing" (VObj ∅) None
  = Some (Throw (ModuleNotFound "/project/.webpack/missing.js"))
  /\ _loadConfig "/project" Sample.path_join Probe.node_require Sample.merge
       2 ".webpack" "orphan" (VObj ∅) None
     = Some (Throw (ModuleNotFound "/project/.webpack/missing.js")).
Proof.
  split.
  - apply (proj1 (loadConfig_failures "/project" Sample.path_join
                    Probe.node_require Sample.merge 0 ".webpack" "missing"
                    (VObj ∅) None)).
    reflexivity.
  - apply (proj2 (proj2 (proj2
             (loadConfig_failures "/project" Sample.path_join
                Probe.node_require Sample.merge 0 ".webpack" "orphan"
                (VObj ∅) None)))
             (Sample.returns Probe.orphan_config)
             (fun _ => Ok (VObj Probe.orphan_config))
             Probe.orphan_config (VStr "missing"));
      reflexivity.
Defined.

Lemma inheritance_composes_witness :
  _loadConfig "/project" Sample.path_join Probe.node_require Sample.merge
    3 ".webpack" "child" (VObj ∅) None
  = Some (Ok (Sample.merge
                (Sample.merge (VObj Probe.grand_config)
                   (VObj (delete "extends" Probe.parent_config)))
                (VObj (delete "extends" Probe.child_config)))).
Proof.
  apply (inheritance_composes "/project" Sample.path_join
           Probe.node_require Sample.merge 0 ".webpack" "child" (VObj ∅) None
           (Sample.returns Probe.child_config)
           (Sample.returns Probe.parent_config)
           (Sample.returns Probe.grand_config)
           (fun _ => Ok (VObj Probe.child_config))
           (fun _ => Ok (VObj Probe.parent_config))
           (fun _ => Ok (VObj Probe.grand_config))
           Probe.child_config Probe.parent_config
           (VStr "parent") (VStr "grand") (VObj Probe.grand_config));
    reflexivity.
Defined.
